(** * WebSocketView: header validation, security gate and route dispatch

    A shallow embedding of [django_aws_api_gateway_websockets/views.py].
    The class [WebSocketView] becomes a record of its class and instance
    attributes, its methods become functions in a small state-and-exception
    monad [M] (the interpreter state holds the object allocator and the
    records handed to [logger]), and Python objects whose identity the code
    inspects ([is not]) carry an explicit object id. *)

From Stdlib Require Import ZArith Ascii String.
From stdpp Require Import base option gmap strings list fin_maps.

#[local] Set Warnings "-register-all".
Local Open Scope string_scope.

(* ===================================================================== *)
(** ** Python strings *)
(* ===================================================================== *)

(** [str.lower()] / [str.upper()] on the ASCII range: header names and HTTP
    verbs are ASCII tokens. *)
Definition ascii_lower (c : ascii) : ascii :=
  let n := N_of_ascii c in
  if ((65 <=? n) && (n <=? 90))%N then ascii_of_N (n + 32) else c.

Definition ascii_upper (c : ascii) : ascii :=
  let n := N_of_ascii c in
  if ((97 <=? n) && (n <=? 122))%N then ascii_of_N (n - 32) else c.

Fixpoint lower (s : string) : string :=
  match s with
  | EmptyString => EmptyString
  | String c s' => String (ascii_lower c) (lower s')
  end.

Fixpoint upper (s : string) : string :=
  match s with
  | EmptyString => EmptyString
  | String c s' => String (ascii_upper c) (upper s')
  end.

(** [s.replace('_', '-')] *)
Definition dash_char (c : ascii) : ascii :=
  if bool_decide (c = "_"%char) then "-"%char else c.

Fixpoint dash_underscores (s : string) : string :=
  match s with
  | EmptyString => EmptyString
  | String c s' => String (dash_char c) (dash_underscores s')
  end.

(** The key under which Django's [HttpHeaders] looks a name up:
    [name.replace('_', '-').lower()]. *)
Definition header_key (name : string) : string :=
  lower (dash_underscores name).

(** [s.startswith(p)] *)
Fixpoint starts_with (p s : string) : bool :=
  match p, s with
  | EmptyString, _ => true
  | String a p', String b s' => bool_decide (a = b) && starts_with p' s'
  | String _ _, EmptyString => false
  end.

(** [needle in hay] for two [str]: some suffix of [hay] starts with
    [needle]. *)
Fixpoint str_contains (needle hay : string) : bool :=
  starts_with needle hay ||
  match hay with
  | EmptyString => false
  | String _ hay' => str_contains needle hay'
  end.

(** [needle] occurs in [hay]: the reading of "substring" in the
    specification. *)
Definition is_substring (needle hay : string) : Prop :=
  ∃ pre post, hay = pre +:+ needle +:+ post.

(** A [str] object: its identity (what [is] compares) and its value (what
    [==] and [in] compare). *)
Record PyStr := mk_str { oid : nat; chars : string }.

(** Truth value of an attribute that is [None] or a [str]. *)
Definition truthy (o : option PyStr) : bool :=
  match o with
  | None => false
  | Some s => negb (bool_decide (chars s = ""))
  end.

(* ===================================================================== *)
(** ** Values: decoded JSON, formatted messages, responses *)
(* ===================================================================== *)

(** What [json.loads] yields inside the decoded body. *)
Inductive json :=
| JNull
| JBool (b : bool)
| JInt (n : Z)
| JFloat (mantissa exponent : Z)
| JString (s : string)
| JArray (items : list json)
| JObject (members : list (string * json)).

(** An f-string is kept as its parts: the literal text and the values of
    its replacement fields, in order. *)
Inductive fvalue :=
| FStr (s : string)
| FNone
| FInt (n : Z)
| FList (l : list string)
| FHeaders (h : gmap string (string * PyStr)).

Inductive fpart :=
| Lit (s : string)
| Fmt (v : fvalue).

Abbreviation message := (list fpart).

Inductive HttpResponse :=
| JsonResponse (data : gmap string json)
| HttpResponseBadRequest (content : message)
| HttpResponseNotAllowed (permitted_methods : list string)
| HttpResponseAllow (allow : list string).

(** What a call made by [dispatch] can return: the handlers return
    responses, the predicates reachable through [getattr] return booleans,
    [None] or a [str]. *)
Inductive pyval :=
| VNone
| VBool (b : bool)
| VStr (s : PyStr)
| VResponse (resp : HttpResponse).

Inductive exn :=
| KeyError (key : string)
| TypeError (why : string)
| NotImplementedError (msg : string)
| RecursionError.

(* ===================================================================== *)
(** ** Interpreter state and the monad of method bodies *)
(* ===================================================================== *)

Inductive level := DEBUG | WARNING.

Record LogRecord := mk_log { lvl : level; text : message }.

(** [next_id]: the id the next allocated object receives; every object that
    exists has a smaller one. [log]: the records passed to a logger, oldest
    first. *)
Record PyState := mk_state { next_id : nat; log : list LogRecord }.

Inductive outcome (A : Type) :=
| Returns (a : A)
| Raises (e : exn).
Arguments Returns {A} a.
Arguments Raises {A} e.

Definition M (A : Type) : Type := PyState → outcome A * PyState.

Definition ret {A} (a : A) : M A := λ st, (Returns a, st).

Definition raise {A} (e : exn) : M A := λ st, (Raises e, st).

Definition bind {A B} (m : M A) (k : A → M B) : M B :=
  λ st, match m st with
        | (Returns a, st') => k a st'
        | (Raises e, st') => (Raises e, st')
        end.

#[global] Instance M_ret : MRet M := @ret.
#[global] Instance M_bind : MBind M := λ A B k m, bind m k.

(** Allocation of a new [str] object. *)
Definition new_str (value : string) : M PyStr :=
  λ st, (Returns (mk_str (next_id st) value),
         mk_state (S (next_id st)) (log st)).

Definition logger_emit (l : level) (msg : message) : M unit :=
  λ st, (Returns tt, mk_state (next_id st) (log st ++ [mk_log l msg])).

(* ===================================================================== *)
(** ** Requests, settings and the view *)
(* ===================================================================== *)

(** [headers] is the store of Django's case-insensitive header mapping: the
    normalised name ([header_key]) maps to the name as received and the
    value.
    [user_pk] is [request.user.pk] ([None] for an anonymous user). *)
Record HttpRequest := mk_request {
  headers : gmap string (string * PyStr);
  method : string;
  path : string;
  user_pk : option Z
}.

Record Settings := mk_settings { ALLOWED_HOSTS : list string }.

(** The methods [WebSocketView] defines, the inherited method its
    [dispatch] names, and the two other methods that
    [django.views.generic.View] gives every view. *)
Inductive method_name :=
| m_setup | m_return_bad_request | m_route_selection_key_missing
| m_missing_headers | m_invalid_useragent | m_expected_headers
| m_expected_apigateway_id | m_expected_useragent | m_check_allowed_hosts
| m_check_host_is_in_origin | m_expected_connection_headers
| m_add_user_to_request | m_dispatch | m_connect | m_disconnect | m_default
| m_http_method_not_allowed | m_options | m_allowed_methods.

(** What an attribute name of the view object is bound to: a method of
    the class, another callable, or a value that cannot be called, of which
    the name of its type is kept. *)
Inductive attr :=
| Method (m : method_name)
| Callable (f : HttpRequest → M pyval)
| Data (type_name : string).

(** The view object. The class attributes are fields so that a subclass can
    set them; [slug] is [self.kwargs['slug']] (the URL keyword arguments are
    [{'slug': slug}], and the same are passed on to every handler);
    [extra_attrs] holds the attributes bound elsewhere: the handlers a
    subclass adds, the instance attributes [request] and [args], and what
    [object] provides. *)
Record WebSocketView := mk_view {
  route_selection_key : string;
  body : gmap string json;
  aws_api_gateway_id : option PyStr;
  required_headers : list string;
  required_connection_headers : list string;
  expected_useragent_prefix : string;
  http_method_names : list string;
  slug : string;
  extra_attrs : gmap string attr
}.

Definition default_required_headers : list string :=
  ["Host"; "X-Real-Ip"; "X-Forwarded-For"; "X-Forwarded-Proto"; "Connection";
   "Content-Length"; "X-Forwarded-Port"; "X-Amzn-Trace-Id"; "Connectionid";
   "User-Agent"; "X-Amzn-Apigateway-Api-Id"].

Definition default_required_connection_headers : list string :=
  ["Cookie"; "Origin"; "Sec-Websocket-Extensions"; "Sec-Websocket-Key";
   "Sec-Websocket-Version"].

(** [View.http_method_names] of Django. *)
Definition default_http_method_names : list string :=
  ["get"; "post"; "put"; "patch"; "delete"; "head"; "options"; "trace"].

(** An instance of the class as written: class attributes at their
    defaults, with the per-request [body] and [slug]. *)
Definition base_view (gateway_id : option PyStr) (b : gmap string json)
    (sl : string) (extra : gmap string attr) : WebSocketView :=
  {| route_selection_key := "action";
     body := b;
     aws_api_gateway_id := gateway_id;
     required_headers := default_required_headers;
     required_connection_headers := default_required_connection_headers;
     expected_useragent_prefix := "AmazonAPIGateway_";
     http_method_names := default_http_method_names;
     slug := sl;
     extra_attrs := extra |}.

(* ===================================================================== *)
(** ** Header access *)
(* ===================================================================== *)

(** [name in request.headers.keys()]: membership goes through the
    mapping's own lookup, which normalises the name. *)
Definition has_header (request : HttpRequest) (name : string) : bool :=
  bool_decide (is_Some (headers request !! header_key name)).

(** [request.headers[name]]; a missing header raises KeyError with the
    normalised key. *)
Definition getitem (request : HttpRequest) (name : string) : M PyStr :=
  match headers request !! header_key name with
  | Some (_, v) => mret v
  | None => raise (KeyError (header_key name))
  end.

(** [str(x)] inside an f-string, for an attribute that is [None] or a str. *)
Definition fmt_opt (o : option PyStr) : fvalue :=
  match o with
  | None => FNone
  | Some s => FStr (chars s)
  end.

Definition str_opt (o : option PyStr) : string :=
  match o with
  | None => "None"
  | Some s => chars s
  end.

(* ===================================================================== *)
(** ** The methods of WebSocketView *)
(* ===================================================================== *)

Definition _return_bad_request (self : WebSocketView) (request : HttpRequest)
    (msg : message) : M HttpResponse :=
  logger_emit WARNING msg ;;
  mret (HttpResponseBadRequest msg).

Definition route_selection_key_missing (self : WebSocketView)
    (request : HttpRequest) : M HttpResponse :=
  let msg := [Lit "route_select_key "; Fmt (FStr (route_selection_key self));
              Lit " missing from request body."] in
  _return_bad_request self request msg.

Definition missing_headers (self : WebSocketView) (request : HttpRequest)
    : M HttpResponse :=
  let msg := [Lit "Some of the required headers are missing; Expected ";
              Fmt (FList (required_headers self)); Lit ", Received ";
              Fmt (FHeaders (headers request))] in
  _return_bad_request self request msg.

Definition invalid_useragent (self : WebSocketView) (request : HttpRequest)
    : M HttpResponse :=
  ua ← getitem request "User-Agent";
  let msg := [Lit "Unexpected Useragent; Expected ";
              Fmt (FStr (expected_useragent_prefix self));
              Fmt (fmt_opt (aws_api_gateway_id self)); Lit ", ";
              Lit "Received "; Fmt (FStr (chars ua))] in
  _return_bad_request self request msg.

Definition _expected_headers (self : WebSocketView) (request : HttpRequest)
    : bool :=
  forallb (has_header request) (required_headers self).

(** [a and b] evaluates to [a] when [a] is falsy, else to [b]; [is not]
    compares object identity. *)
Definition _expected_apigateway_id (self : WebSocketView)
    (request : HttpRequest) : M pyval :=
  match aws_api_gateway_id self with
  | None => mret VNone
  | Some g =>
      if truthy (Some g) then
        h ← getitem request "X-Amzn-Apigateway-Api-Id";
        mret (VBool (negb (bool_decide (oid h = oid g))))
      else mret (VStr g)
  end.

(** In the first branch the right operand of [is not] is an f-string with
    two replacement fields and a non-empty result: evaluating it builds a
    new [str] object. *)
Definition _expected_useragent (self : WebSocketView) (request : HttpRequest)
    : M bool :=
  if truthy (aws_api_gateway_id self) then
    ua ← getitem request "User-Agent";
    expected ← new_str (expected_useragent_prefix self
                        +:+ str_opt (aws_api_gateway_id self));
    mret (negb (bool_decide (oid ua = oid expected)))
  else
    ua ← getitem request "User-Agent";
    mret (str_contains (expected_useragent_prefix self) (chars ua)).

Definition _check_allowed_hosts (settings : Settings) (request : HttpRequest)
    : M bool :=
  match ALLOWED_HOSTS settings with
  | [] => mret true
  | _ =>
      host ← getitem request "Host";
      if bool_decide (chars host ∈ ALLOWED_HOSTS settings) then mret true
      else
        host' ← getitem request "Host";
        logger_emit WARNING [Fmt (FStr (chars host'));
                             Lit " not in settings.ALLOWED_HOSTS"] ;;
        mret false
  end.

Definition _check_host_is_in_origin (request : HttpRequest) : M bool :=
  host ← getitem request "Host";
  origin ← getitem request "Origin";
  if str_contains (chars host) (chars origin) then mret true
  else
    host' ← getitem request "Host";
    origin' ← getitem request "Origin";
    logger_emit WARNING [Fmt (FStr (chars host')); Lit " not in ";
                         Fmt (FStr (chars origin'))] ;;
    mret false.

Definition _expected_connection_headers (self : WebSocketView)
    (request : HttpRequest) : bool :=
  forallb (has_header request) (required_connection_headers self).

(** The body is [pass]. *)
Definition _add_user_to_request (self : WebSocketView) (request : HttpRequest)
    : M unit :=
  mret tt.

Definition newline : string := String (ascii_of_N 10) EmptyString.

Definition fmt_pk (pk : option Z) : fvalue :=
  match pk with
  | None => FNone
  | Some n => FInt n
  end.

Definition connect (settings : Settings) (self : WebSocketView)
    (request : HttpRequest) : M HttpResponse :=
  if negb (_expected_connection_headers self request) then
    let msg := [Lit "Missing headers; Expected ";
                Fmt (FList (required_connection_headers self));
                Lit ", Received "; Fmt (FHeaders (headers request))] in
    _return_bad_request self request msg
  else
    allowed ← _check_allowed_hosts settings request;
    if negb allowed then
      host ← getitem request "Host";
      let msg := [Lit "Host "; Fmt (FStr (chars host));
                  Lit " not in AllowedHosts ";
                  Fmt (FList (ALLOWED_HOSTS settings))] in
      _return_bad_request self request msg
    else
      within ← _check_host_is_in_origin request;
      if negb within then
        host ← getitem request "Host";
        host' ← getitem request "Host";
        let msg := [Lit "Host "; Fmt (FStr (chars host));
                    Lit " not in Origin "; Fmt (FStr (chars host'))] in
        _return_bad_request self request msg
      else
        logger_emit DEBUG
          [Lit (newline +:+ newline +:+ newline +:+ "slug=");
           Fmt (FStr (slug self)); Lit "; request.user.pk=";
           Fmt (fmt_pk (user_pk request)); Lit (newline +:+ newline)] ;;
        mret (JsonResponse ∅).

Definition disconnect (self : WebSocketView) (request : HttpRequest)
    : M HttpResponse :=
  logger_emit DEBUG
    [Lit "Would update the websocket class to set connected as false"] ;;
  mret (JsonResponse ∅).

Definition default (self : WebSocketView) (request : HttpRequest)
    : M HttpResponse :=
  raise (NotImplementedError
           "This logic needs to be defined within the subclass").

(* ===================================================================== *)
(** ** Attribute lookup and calls *)
(* ===================================================================== *)

(** [type(x).__name__] of an attribute that is [None] or a [str]. *)
Definition opt_type_name (o : option PyStr) : string :=
  match o with
  | None => "NoneType"
  | Some _ => "str"
  end.

(** The names bound on the view by this class (its methods and class
    attributes) and by [django.views.generic.View]. [as_view] is not among
    them: it can be read on the class only, and on an instance [getattr]
    falls back to its default. *)
Definition own_attrs (self : WebSocketView) : list (string * attr) :=
  [("route_selection_key", Data "str"); ("model", Data "NoneType");
   ("body", Data "dict");
   ("aws_api_gateway_id", Data (opt_type_name (aws_api_gateway_id self)));
   ("required_headers", Data "list");
   ("required_connection_headers", Data "list");
   ("expected_useragent_prefix", Data "str");
   ("setup", Method m_setup);
   ("_return_bad_request", Method m_return_bad_request);
   ("route_selection_key_missing", Method m_route_selection_key_missing);
   ("missing_headers", Method m_missing_headers);
   ("invalid_useragent", Method m_invalid_useragent);
   ("_expected_headers", Method m_expected_headers);
   ("_expected_apigateway_id", Method m_expected_apigateway_id);
   ("_expected_useragent", Method m_expected_useragent);
   ("_check_allowed_hosts", Method m_check_allowed_hosts);
   ("_check_host_is_in_origin", Method m_check_host_is_in_origin);
   ("_expected_connection_headers", Method m_expected_connection_headers);
   ("_add_user_to_request", Method m_add_user_to_request);
   ("dispatch", Method m_dispatch);
   ("connect", Method m_connect);
   ("disconnect", Method m_disconnect);
   ("default", Method m_default);
   ("http_method_names", Data "list"); ("kwargs", Data "dict");
   ("http_method_not_allowed", Method m_http_method_not_allowed);
   ("options", Method m_options);
   ("_allowed_methods", Method m_allowed_methods)].

Fixpoint assoc {A} (key : string) (table : list (string * A)) : option A :=
  match table with
  | [] => None
  | (k, v) :: rest => if bool_decide (k = key) then Some v else assoc key rest
  end.

(** Attribute lookup on the view object; [None] when the name is not an
    attribute. The names of [own_attrs] resolve to this class. *)
Definition lookup_attr (self : WebSocketView) (name : string) : option attr :=
  match assoc name (own_attrs self) with
  | Some a => Some a
  | None => extra_attrs self !! name
  end.

(** [getattr(self, name, self.default)] *)
Definition getattr_or_default (self : WebSocketView) (name : string) : attr :=
  match lookup_attr self name with
  | Some a => a
  | None => Method m_default
  end.

(** [View._allowed_methods], [View.http_method_not_allowed] and
    [View.options] of Django. *)
Definition _allowed_methods (self : WebSocketView) : list string :=
  map upper
    (filter (λ m, is_Some (lookup_attr self m)) (http_method_names self)).

Definition http_method_not_allowed (self : WebSocketView)
    (request : HttpRequest) : M HttpResponse :=
  logger_emit WARNING [Lit "Method Not Allowed ("; Fmt (FStr (method request));
                       Lit "): "; Fmt (FStr (path request))] ;;
  mret (HttpResponseNotAllowed (_allowed_methods self)).

(** [options] answers with an empty 200 response whose [Allow] header lists
    [_allowed_methods]. *)
Definition options (self : WebSocketView) (request : HttpRequest)
    : M HttpResponse :=
  mret (HttpResponseAllow (_allowed_methods self)).

(** The TypeError of a call that passes [slug=...] to a function whose
    signature has no such parameter and no [**kwargs]; the interpreter
    (CPython 3.10 and later) names the function by its qualified name. *)
Definition unexpected_slug (qualname : string) : exn :=
  TypeError (qualname +:+ "() got an unexpected keyword argument 'slug'").

Definition as_val (m : M HttpResponse) : M pyval :=
  resp ← m; mret (VResponse resp).

(** [handler(request, *args, **kwargs)] with [args = ()] and
    [kwargs = {'slug': ...}], for [handler] a bound method of the view.
    [dispatch_again] is the nested call of [dispatch]. The methods whose
    signature has neither [**kwargs] nor a [slug] parameter cannot be called
    this way; [setup] rebinds the instance attributes to the values they
    have and returns [None]. *)
Definition call_method (dispatch_again : M pyval) (settings : Settings)
    (self : WebSocketView) (request : HttpRequest) (m : method_name)
    : M pyval :=
  match m with
  | m_setup => mret VNone
  | m_route_selection_key_missing =>
      as_val (route_selection_key_missing self request)
  | m_missing_headers => as_val (missing_headers self request)
  | m_invalid_useragent => as_val (invalid_useragent self request)
  | m_expected_headers => mret (VBool (_expected_headers self request))
  | m_expected_apigateway_id => _expected_apigateway_id self request
  | m_expected_useragent =>
      b ← _expected_useragent self request; mret (VBool b)
  | m_return_bad_request =>
      raise (unexpected_slug "WebSocketView._return_bad_request")
  | m_check_allowed_hosts =>
      raise (unexpected_slug "WebSocketView._check_allowed_hosts")
  | m_check_host_is_in_origin =>
      raise (unexpected_slug "WebSocketView._check_host_is_in_origin")
  | m_add_user_to_request =>
      raise (unexpected_slug "WebSocketView._add_user_to_request")
  | m_allowed_methods => raise (unexpected_slug "View._allowed_methods")
  | m_options => as_val (options self request)
  | m_expected_connection_headers =>
      mret (VBool (_expected_connection_headers self request))
  | m_dispatch => dispatch_again
  | m_connect => as_val (connect settings self request)
  | m_disconnect => as_val (disconnect self request)
  | m_default => as_val (default self request)
  | m_http_method_not_allowed => as_val (http_method_not_allowed self request)
  end.

Definition call_attr (dispatch_again : M pyval) (settings : Settings)
    (self : WebSocketView) (request : HttpRequest) (handler : attr)
    : M pyval :=
  match handler with
  | Method m => call_method dispatch_again settings self request m
  | Callable f => f request
  | Data type_name =>
      raise (TypeError ("'" +:+ type_name +:+ "' object is not callable"))
  end.

(* ===================================================================== *)
(** ** dispatch *)
(* ===================================================================== *)

(** [type(v).__name__] of a decoded JSON value, which [getattr] quotes
    when the attribute name is not a string. *)
Definition json_type_name (v : json) : string :=
  match v with
  | JNull => "NoneType"
  | JBool _ => "bool"
  | JInt _ => "int"
  | JFloat _ _ => "float"
  | JString _ => "str"
  | JArray _ => "list"
  | JObject _ => "dict"
  end.

(** The part of [dispatch] before its last line: the handler it binds. *)
Definition select_handler (self : WebSocketView) (request : HttpRequest)
    : M attr :=
  if _expected_headers self request then
    if bool_decide (lower (method request) ∈ http_method_names self) then
      if bool_decide ("connect" = slug self) then
        mret (Method m_connect)
      else if bool_decide ("disconnect" = slug self) then
        ok ← _expected_useragent self request;
        if negb ok then mret (Method m_invalid_useragent)
        else
          _add_user_to_request self request ;;
          mret (Method m_disconnect)
      else
        match body self !! route_selection_key self with
        | Some v =>
            handler ← match v with
                      | JString name => mret (getattr_or_default self name)
                      | _ => raise (TypeError
                                      ("attribute name must be string, not '"
                                       +:+ json_type_name v +:+ "'"))
                      end;
            ok ← _expected_useragent self request;
            if negb ok then mret (Method m_invalid_useragent)
            else
              _add_user_to_request self request ;;
              mret handler
        | None => mret (Method m_route_selection_key_missing)
        end
    else mret (Method m_http_method_not_allowed)
  else mret (Method m_missing_headers).

(** [depth] is the number of nested [dispatch] calls the interpreter's
    recursion limit still allows ([dispatch] is itself an attribute that the
    route key can name). *)
Fixpoint dispatch (settings : Settings) (depth : nat) (self : WebSocketView)
    (request : HttpRequest) : M pyval :=
  match depth with
  | O => raise RecursionError
  | S d =>
      handler ← select_handler self request;
      call_attr (dispatch settings d self request) settings self request
        handler
  end.

(* ===================================================================== *)
(** ** The dispatcher's gates and routes *)
(* ===================================================================== *)

(** The request is past the two gates of [dispatch]: every required header
    is present and the verb is one of [http_method_names]. *)
Definition passes_gates (self : WebSocketView) (request : HttpRequest)
    : Prop :=
  _expected_headers self request = true
  ∧ lower (method request) ∈ http_method_names self.

(** The slug is neither of the two lifecycle slugs. *)
Definition application_route (self : WebSocketView) : Prop :=
  slug self ≠ "connect" ∧ slug self ≠ "disconnect".

(** The request carries every header of [names]. *)
Definition carries_headers (request : HttpRequest) (names : list string)
    : Prop :=
  ∀ name, name ∈ names → is_Some (headers request !! header_key name).

Definition is_success (o : outcome pyval) : Prop :=
  ∃ data, o = Returns (VResponse (JsonResponse data)).

Definition is_bad_request (o : outcome pyval) : Prop :=
  ∃ msg, o = Returns (VResponse (HttpResponseBadRequest msg)).

(** Every BadRequest response that [m] returns has just been logged as a
    warning with the same message. *)
Definition logs_rejections (m : M pyval) : Prop :=
  ∀ st msg st',
    m st = (Returns (VResponse (HttpResponseBadRequest msg)), st') →
    last (log st') = Some (mk_log WARNING msg).

(* ===================================================================== *)
(** ** Sample events *)
(* ===================================================================== *)

(** Header objects of a request, built from (name, value) pairs; the value
    objects get consecutive ids from [first_id]. *)
Fixpoint header_entries (first_id : nat) (l : list (string * string))
    : list (string * (string * PyStr)) :=
  match l with
  | [] => []
  | (name, value) :: rest =>
      (header_key name, (name, mk_str first_id value))
      :: header_entries (S first_id) rest
  end.

Definition make_headers (l : list (string * string))
    : gmap string (string * PyStr) :=
  list_to_map (header_entries 1 l).

(** The headers an API Gateway integration request carries. *)
Definition gateway_headers (host user_agent : string)
    : list (string * string) :=
  [("Host", host); ("X-Real-Ip", "10.0.0.7"); ("X-Forwarded-For", "10.0.0.7");
   ("X-Forwarded-Proto", "https"); ("Connection", "upgrade");
   ("Content-Length", "0"); ("X-Forwarded-Port", "443");
   ("X-Amzn-Trace-Id", "Root=1-5e1b4151"); ("Connectionid", "Zx1h2cK9");
   ("User-Agent", user_agent); ("X-Amzn-Apigateway-Api-Id", "G1")].

(** The additional headers of the connect handshake. *)
Definition handshake_headers (origin : string) : list (string * string) :=
  [("Cookie", "sessionid=abc"); ("Origin", origin);
   ("Sec-Websocket-Extensions", "permessage-deflate");
   ("Sec-Websocket-Key", "dGhlIHNhbXBsZSBub25jZQ==");
   ("Sec-Websocket-Version", "13")].

Definition gateway_request (user_agent : string) : HttpRequest :=
  mk_request (make_headers (gateway_headers "a.com" user_agent))
    "POST" "/ws/" None.

Definition handshake_request (host origin : string) : HttpRequest :=
  mk_request
    (make_headers (gateway_headers host "AmazonAPIGateway_G1"
                   ++ handshake_headers origin))
    "POST" "/ws/connect" None.

(** The request with header [name] bound to the object [value]. *)
Definition with_header (request : HttpRequest) (name : string)
    (value : PyStr) : HttpRequest :=
  {| headers := <[header_key name := (name, value)]> (headers request);
     method := method request;
     path := path request;
     user_pk := user_pk request |}.

(** A handler that a subclass could add: it answers Success with an empty
    body. *)
Definition pong (request : HttpRequest) : M pyval :=
  mret (VResponse (JsonResponse ∅)).

(** A state in which the objects with ids below 100 exist. *)
Definition sample_state : PyState := mk_state 100 [].

Definition no_allow_list : Settings := mk_settings [].

(** The configured gateway id ["G1"], an object of the class. *)
Definition gateway_G1 : PyStr := mk_str 0 "G1".

(* ===================================================================== *)
(** ** Reasoning about method bodies *)
(* ===================================================================== *)

(** Running a body: unfold the monad's operations down to the state
    function. *)
Ltac run :=
  unfold mbind, M_bind, bind, mret, M_ret, ret, raise, logger_emit, new_str,
    as_val in *; simpl in *.

Lemma bind_returns {A B} (m : M A) (k : A → M B) st a st' :
  m st = (Returns a, st') → (x ← m; k x) st = k a st'.
Proof. intros H. run. by rewrite H. Qed.

Lemma bind_raises {A B} (m : M A) (k : A → M B) st e st' :
  m st = (Raises e, st') → (x ← m; k x) st = (Raises e, st').
Proof. intros H. run. by rewrite H. Qed.

Lemma getitem_present request name k v st :
  headers request !! header_key name = Some (k, v) →
  getitem request name st = (Returns v, st).
Proof. intros H. unfold getitem. by rewrite H. Qed.

Lemma getitem_absent request name st :
  headers request !! header_key name = None →
  getitem request name st = (Raises (KeyError (header_key name)), st).
Proof. intros H. unfold getitem. by rewrite H. Qed.

Lemma has_header_true request name :
  has_header request name = true ↔
  ∃ k v, headers request !! header_key name = Some (k, v).
Proof.
  unfold has_header. rewrite bool_decide_eq_true. split.
  - intros [[k v] H]. eauto.
  - intros (k & v & H). eauto.
Qed.

Lemma has_header_false request name :
  has_header request name = false ↔ headers request !! header_key name = None.
Proof.
  unfold has_header. rewrite bool_decide_eq_false, <- eq_None_not_Some.
  done.
Qed.

(** [all(h in request_headers for h in names)] *)
Lemma all_headers_true request names :
  forallb (has_header request) names = true ↔
  ∀ name, name ∈ names → has_header request name = true.
Proof.
  rewrite forallb_forall. split; intros H name Hin; apply H;
    by apply list_elem_of_In.
Qed.

Lemma all_headers_false request names :
  forallb (has_header request) names = false ↔
  ∃ name, name ∈ names ∧ has_header request name = false.
Proof.
  induction names as [|n names IH]; simpl.
  - split; [done | intros (name & Hin & _); by apply elem_of_nil in Hin].
  - rewrite andb_false_iff, IH. split.
    + intros [H | (name & Hin & H)].
      * exists n. split; [left | done].
      * exists name. split; [by right | done].
    + intros (name & Hin & H). apply elem_of_cons in Hin as [-> | Hin].
      * by left.
      * right. eauto.
Qed.

Lemma carries_headers_true request names :
  carries_headers request names →
  forallb (has_header request) names = true.
Proof.
  intros H. apply all_headers_true. intros name Hin.
  apply bool_decide_eq_true. by apply H.
Qed.

Lemma missing_header_false request names name :
  name ∈ names → headers request !! header_key name = None →
  forallb (has_header request) names = false.
Proof.
  intros Hin Hno. apply all_headers_false. exists name. split; [done|].
  by apply has_header_false.
Qed.

Lemma required_header_present self request name :
  _expected_headers self request = true → name ∈ required_headers self →
  ∃ k v, headers request !! header_key name = Some (k, v).
Proof.
  unfold _expected_headers. rewrite all_headers_true. intros H Hin.
  apply has_header_true. by apply H.
Qed.

(* ===================================================================== *)
(** ** Substrings *)
(* ===================================================================== *)

Lemma starts_with_spec p s :
  starts_with p s = true ↔ ∃ post, s = p +:+ post.
Proof.
  revert s. induction p as [|a p IH]; intros s; simpl.
  - split; [intros _; by exists s | done].
  - destruct s as [|b s].
    + split; [done | intros (post & H); discriminate].
    + rewrite andb_true_iff, bool_decide_eq_true, IH. split.
      * intros [-> (post & ->)]. by exists post.
      * intros (post & H). injection H as -> ->. eauto.
Qed.

Lemma str_contains_spec needle hay :
  str_contains needle hay = true ↔ is_substring needle hay.
Proof.
  unfold is_substring. induction hay as [|c hay IH].
  - simpl. rewrite orb_false_r, starts_with_spec. split.
    + intros (post & H). by exists "", post.
    + intros (pre & post & H). destruct pre; simpl in H; [eauto|done].
  - cbn [str_contains]. rewrite orb_true_iff, IH, starts_with_spec. split.
    + intros [(post & H) | (pre & post & H)].
      * by exists "", post.
      * exists (String c pre), post. simpl. by rewrite H.
    + intros (pre & post & H). destruct pre as [|c' pre]; simpl in H.
      * left. eauto.
      * right. injection H as -> ->. eauto.
Qed.

Lemma str_contains_false needle hay :
  str_contains needle hay = false ↔ ¬ is_substring needle hay.
Proof.
  rewrite <- str_contains_spec. by destruct (str_contains needle hay).
Qed.

(* ===================================================================== *)
(** ** The security gate: host and origin *)
(* ===================================================================== *)

Lemma check_host_is_in_origin_run request kh host ko origin st :
  headers request !! "host" = Some (kh, host) →
  headers request !! "origin" = Some (ko, origin) →
  _check_host_is_in_origin request st =
    if str_contains (chars host) (chars origin) then (Returns true, st)
    else (Returns false,
          mk_state (next_id st)
            (log st ++ [mk_log WARNING [Fmt (FStr (chars host));
                                        Lit " not in ";
                                        Fmt (FStr (chars origin))]])).
Proof.
  intros Hh Ho. unfold _check_host_is_in_origin.
  rewrite (bind_returns _ _ _ _ _ (getitem_present _ "Host" _ _ _ Hh)).
  rewrite (bind_returns _ _ _ _ _ (getitem_present _ "Origin" _ _ _ Ho)).
  destruct (str_contains (chars host) (chars origin)); [done|].
  rewrite (bind_returns _ _ _ _ _ (getitem_present _ "Host" _ _ _ Hh)).
  rewrite (bind_returns _ _ _ _ _ (getitem_present _ "Origin" _ _ _ Ho)).
  done.
Qed.

Lemma check_allowed_hosts_run settings request kh host st :
  headers request !! "host" = Some (kh, host) →
  _check_allowed_hosts settings request st =
    if bool_decide (ALLOWED_HOSTS settings = []
                    ∨ chars host ∈ ALLOWED_HOSTS settings)
    then (Returns true, st)
    else (Returns false,
          mk_state (next_id st)
            (log st ++ [mk_log WARNING
                          [Fmt (FStr (chars host));
                           Lit " not in settings.ALLOWED_HOSTS"]])).
Proof.
  intros Hh. unfold _check_allowed_hosts.
  destruct (ALLOWED_HOSTS settings) as [|a l] eqn:E.
  - rewrite bool_decide_eq_true_2; [done | by left].
  - rewrite (bind_returns _ _ _ _ _ (getitem_present _ "Host" _ _ _ Hh)).
    destruct (decide (chars host ∈ a :: l)) as [Hin | Hin].
    + rewrite !bool_decide_eq_true_2; [done | by right | done].
    + rewrite !bool_decide_eq_false_2; [| by intros [? | ?] | done].
      by rewrite (bind_returns _ _ _ _ _
                    (getitem_present _ "Host" _ _ _ Hh)).
Qed.

Lemma check_allowed_hosts_empty settings request st :
  ALLOWED_HOSTS settings = [] →
  _check_allowed_hosts settings request st = (Returns true, st).
Proof. intros E. unfold _check_allowed_hosts. by rewrite E. Qed.

(** C8. For every request that carries a Host and an Origin header,
    [_check_host_is_in_origin] returns, and it returns [True] exactly when
    the Host value occurs as a substring of the Origin value (otherwise
    [False]). With Host [a.com], Origin [https://a.com] gives [True] and
    Origin [https://b.com] gives [False]. *)
Theorem check_host_is_in_origin_iff_substring request kh host ko origin st :
  headers request !! "host" = Some (kh, host) →
  headers request !! "origin" = Some (ko, origin) →
  (fst (_check_host_is_in_origin request st) = Returns true
     ↔ is_substring (chars host) (chars origin))
  ∧ (fst (_check_host_is_in_origin request st) = Returns false
     ↔ ¬ is_substring (chars host) (chars origin))
  ∧ fst (_check_host_is_in_origin
           (handshake_request "a.com" "https://a.com") st) = Returns true
  ∧ fst (_check_host_is_in_origin
           (handshake_request "a.com" "https://b.com") st) = Returns false.
Proof.
  intros Hh Ho. rewrite (check_host_is_in_origin_run _ _ _ _ _ _ Hh Ho).
  rewrite <- str_contains_false, <- str_contains_spec.
  split_and!; [| | by vm_compute | by vm_compute];
    destruct (str_contains (chars host) (chars origin)); simpl;
    split; congruence.
Qed.

Lemma check_host_is_in_origin_iff_substring_witness :
  fst (_check_host_is_in_origin
         (handshake_request "example.org" "https://example.org:8443")
         sample_state) = Returns true
  ↔ is_substring "example.org" "https://example.org:8443".
Proof.
  exact (proj1 (check_host_is_in_origin_iff_substring
                  (handshake_request "example.org" "https://example.org:8443")
                  "Host" (mk_str 1 "example.org")
                  "Origin" (mk_str 13 "https://example.org:8443")
                  sample_state eq_refl eq_refl)).
Defined.

(* ===================================================================== *)
(** ** The connect handler *)
(* ===================================================================== *)

(** C5. [connect] runs three checks in order and stops at the first that
    fails: (1) when the request lacks one of the connection headers it
    answers BadRequest and logs only that rejection, whatever the host
    checks would say; (2) else, when the allow-list is non-empty and lacks
    the Host value, it answers BadRequest after the allowed-host check has
    logged; (3) else, when the Host value is not a substring of the Origin
    value, it answers BadRequest after the origin check has logged;
    (4) when the request carries every connection header and both host
    checks pass, it returns a Success response with an empty JSON body. *)
Theorem connect_checks_in_order settings self request st :
  (∀ name,
     name ∈ required_connection_headers self →
     headers request !! header_key name = None →
     let msg := [Lit "Missing headers; Expected ";
                 Fmt (FList (required_connection_headers self));
                 Lit ", Received "; Fmt (FHeaders (headers request))] in
     connect settings self request st =
       (Returns (HttpResponseBadRequest msg),
        mk_state (next_id st) (log st ++ [mk_log WARNING msg])))
  ∧ (∀ kh host,
       carries_headers request (required_connection_headers self) →
       headers request !! "host" = Some (kh, host) →
       ¬ (ALLOWED_HOSTS settings = []
          ∨ chars host ∈ ALLOWED_HOSTS settings) →
       let msg := [Lit "Host "; Fmt (FStr (chars host));
                   Lit " not in AllowedHosts ";
                   Fmt (FList (ALLOWED_HOSTS settings))] in
       connect settings self request st =
         (Returns (HttpResponseBadRequest msg),
          mk_state (next_id st)
            (log st ++ [mk_log WARNING
                          [Fmt (FStr (chars host));
                           Lit " not in settings.ALLOWED_HOSTS"];
                        mk_log WARNING msg])))
  ∧ (∀ kh host ko origin,
       carries_headers request (required_connection_headers self) →
       headers request !! "host" = Some (kh, host) →
       headers request !! "origin" = Some (ko, origin) →
       ALLOWED_HOSTS settings = [] ∨ chars host ∈ ALLOWED_HOSTS settings →
       ¬ is_substring (chars host) (chars origin) →
       let msg := [Lit "Host "; Fmt (FStr (chars host));
                   Lit " not in Origin "; Fmt (FStr (chars host))] in
       connect settings self request st =
         (Returns (HttpResponseBadRequest msg),
          mk_state (next_id st)
            (log st ++ [mk_log WARNING
                          [Fmt (FStr (chars host)); Lit " not in ";
                           Fmt (FStr (chars origin))];
                        mk_log WARNING msg])))
  ∧ (∀ kh host ko origin,
       carries_headers request (required_connection_headers self) →
       headers request !! "host" = Some (kh, host) →
       headers request !! "origin" = Some (ko, origin) →
       ALLOWED_HOSTS settings = [] ∨ chars host ∈ ALLOWED_HOSTS settings →
       is_substring (chars host) (chars origin) →
       connect settings self request st =
         (Returns (JsonResponse ∅),
          mk_state (next_id st)
            (log st ++ [mk_log DEBUG
                          [Lit (newline +:+ newline +:+ newline +:+ "slug=");
                           Fmt (FStr (slug self));
                           Lit "; request.user.pk=";
                           Fmt (fmt_pk (user_pk request));
                           Lit (newline +:+ newline)]]))).
Proof.
  split_and!.
  - intros name Hin Hno msg. unfold connect, _expected_connection_headers.
    by rewrite (missing_header_false _ _ _ Hin Hno).
  - intros kh host Hc Hh Hno. unfold connect, _expected_connection_headers.
    rewrite (carries_headers_true _ _ Hc). simpl.
    unfold mbind, M_bind, bind.
    rewrite (check_allowed_hosts_run settings _ _ _ st Hh).
    rewrite bool_decide_eq_false_2 by done. simpl.
    rewrite (getitem_present _ "Host" _ _ _ Hh).
    unfold _return_bad_request. run. by rewrite <- app_assoc.
  - intros kh host ko origin Hc Hh Ho Hal Hsub.
    unfold connect, _expected_connection_headers.
    rewrite (carries_headers_true _ _ Hc). simpl.
    unfold mbind, M_bind, bind.
    rewrite (check_allowed_hosts_run settings _ _ _ st Hh).
    rewrite bool_decide_eq_true_2 by done. simpl.
    rewrite (check_host_is_in_origin_run _ _ _ _ _ st Hh Ho).
    apply str_contains_false in Hsub. rewrite Hsub. simpl.
    rewrite !(getitem_present _ "Host" _ _ _ Hh).
    unfold _return_bad_request. run. by rewrite <- app_assoc.
  - intros kh host ko origin Hc Hh Ho Hal Hsub.
    unfold connect, _expected_connection_headers.
    rewrite (carries_headers_true _ _ Hc). simpl.
    unfold mbind, M_bind, bind.
    rewrite (check_allowed_hosts_run settings _ _ _ st Hh).
    rewrite bool_decide_eq_true_2 by done. simpl.
    rewrite (check_host_is_in_origin_run _ _ _ _ _ st Hh Ho).
    apply str_contains_spec in Hsub. by rewrite Hsub.
Qed.

Lemma connect_checks_in_order_witness :
  (∃ msg,
     connect no_allow_list (base_view None ∅ "connect" ∅)
       (mk_request
          (make_headers (gateway_headers "a.com" "AmazonAPIGateway_G1"
                         ++ [("Cookie", "sessionid=abc");
                             ("Origin", "https://a.com")]))
          "POST" "/ws/connect" None) sample_state
     = (Returns (HttpResponseBadRequest msg),
        mk_state 100 [mk_log WARNING msg]))
  ∧ ∃ record,
      connect no_allow_list (base_view None ∅ "connect" ∅)
        (handshake_request "a.com" "https://a.com") sample_state
      = (Returns (JsonResponse ∅), mk_state 100 [record]).
Proof.
  split.
  - eexists.
    refine (proj1
      (connect_checks_in_order no_allow_list (base_view None ∅ "connect" ∅)
         (mk_request
            (make_headers (gateway_headers "a.com" "AmazonAPIGateway_G1"
                           ++ [("Cookie", "sessionid=abc");
                               ("Origin", "https://a.com")]))
            "POST" "/ws/connect" None) sample_state)
      "Sec-Websocket-Key" _ _).
    + compute_done.
    + reflexivity.
  - eexists.
    refine (proj2 (proj2 (proj2
      (connect_checks_in_order no_allow_list (base_view None ∅ "connect" ∅)
         (handshake_request "a.com" "https://a.com") sample_state)))
      "Host" (mk_str 1 "a.com") "Origin" (mk_str 13 "https://a.com")
      _ _ _ _ _).
    + intros name Hin.
      repeat (apply elem_of_cons in Hin as [-> | Hin]; [by eexists|]).
      by apply elem_of_nil in Hin.
    + reflexivity.
    + reflexivity.
    + left. reflexivity.
    + exists "https://", "". reflexivity.
Defined.

(* ===================================================================== *)
(** ** The identity check *)
(* ===================================================================== *)

Lemma expected_useragent_strict self request k ua st :
  truthy (aws_api_gateway_id self) = true →
  headers request !! "user-agent" = Some (k, ua) →
  _expected_useragent self request st =
    (Returns (negb (bool_decide (oid ua = next_id st))),
     mk_state (S (next_id st)) (log st)).
Proof.
  intros Ht Hua. unfold _expected_useragent. rewrite Ht.
  by rewrite (bind_returns _ _ _ _ _
                (getitem_present _ "User-Agent" _ _ _ Hua)).
Qed.

Lemma expected_useragent_lenient self request k ua st :
  truthy (aws_api_gateway_id self) = false →
  headers request !! "user-agent" = Some (k, ua) →
  _expected_useragent self request st =
    (Returns (str_contains (expected_useragent_prefix self) (chars ua)), st).
Proof.
  intros Ht Hua. unfold _expected_useragent. rewrite Ht.
  by rewrite (bind_returns _ _ _ _ _
                (getitem_present _ "User-Agent" _ _ _ Hua)).
Qed.

Lemma expected_useragent_absent self request st :
  headers request !! "user-agent" = None →
  _expected_useragent self request st = (Raises (KeyError "user-agent"), st).
Proof.
  intros Hua. unfold _expected_useragent.
  destruct (truthy _);
    by rewrite (bind_raises _ _ _ _ _
                  (getitem_absent _ "User-Agent" _ Hua)).
Qed.

(** With the header present the check returns a boolean and logs nothing. *)
Lemma expected_useragent_returns self request k ua st :
  headers request !! "user-agent" = Some (k, ua) →
  ∃ ok st', _expected_useragent self request st = (Returns ok, st')
            ∧ log st' = log st.
Proof.
  intros Hua. destruct (truthy (aws_api_gateway_id self)) eqn:Ht.
  - rewrite (expected_useragent_strict _ _ _ _ _ Ht Hua). eauto.
  - rewrite (expected_useragent_lenient _ _ _ _ _ Ht Hua). eauto.
Qed.

(* ===================================================================== *)
(** ** The branches of dispatch *)
(* ===================================================================== *)

Lemma dispatch_step settings d self request st :
  dispatch settings (S d) self request st =
    match select_handler self request st with
    | (Returns handler, st') =>
        call_attr (dispatch settings d self request) settings self request
          handler st'
    | (Raises e, st') => (Raises e, st')
    end.
Proof. reflexivity. Qed.

Lemma select_missing_headers self request st :
  _expected_headers self request = false →
  select_handler self request st = (Returns (Method m_missing_headers), st).
Proof. intros H. unfold select_handler. by rewrite H. Qed.

Lemma select_method_not_allowed self request st :
  _expected_headers self request = true →
  lower (method request) ∉ http_method_names self →
  select_handler self request st =
    (Returns (Method m_http_method_not_allowed), st).
Proof.
  intros H Hm. unfold select_handler.
  by rewrite H, bool_decide_eq_false_2.
Qed.

Lemma select_connect self request st :
  passes_gates self request → slug self = "connect" →
  select_handler self request st = (Returns (Method m_connect), st).
Proof.
  intros [H Hm] Hs. unfold select_handler.
  by rewrite H, bool_decide_eq_true_2, Hs.
Qed.

Lemma select_disconnect self request st :
  passes_gates self request → slug self = "disconnect" →
  select_handler self request st =
    match _expected_useragent self request st with
    | (Returns ok, st') =>
        (Returns (Method (if ok then m_disconnect else m_invalid_useragent)),
         st')
    | (Raises e, st') => (Raises e, st')
    end.
Proof.
  intros [H Hm] Hs. unfold select_handler.
  rewrite H, bool_decide_eq_true_2, Hs by done. simpl. run.
  by destruct (_expected_useragent self request st) as [[[] | e] st'].
Qed.

Lemma select_keyed self request st name :
  passes_gates self request → application_route self →
  body self !! route_selection_key self = Some (JString name) →
  select_handler self request st =
    match _expected_useragent self request st with
    | (Returns ok, st') =>
        (Returns (if ok then getattr_or_default self name
                  else Method m_invalid_useragent), st')
    | (Raises e, st') => (Raises e, st')
    end.
Proof.
  intros [H Hm] [Hc Hd] Hb. unfold select_handler.
  rewrite H, bool_decide_eq_true_2, !bool_decide_eq_false_2, Hb by done.
  run. by destruct (_expected_useragent self request st) as [[[] | e] st'].
Qed.

Lemma select_key_missing self request st :
  passes_gates self request → application_route self →
  body self !! route_selection_key self = None →
  select_handler self request st =
    (Returns (Method m_route_selection_key_missing), st).
Proof.
  intros [H Hm] [Hc Hd] Hb. unfold select_handler.
  by rewrite H, bool_decide_eq_true_2, !bool_decide_eq_false_2, Hb.
Qed.

(** C3. When the request lacks a name of the required-header list,
    [_expected_headers] is false, [dispatch] binds the [missing_headers]
    handler and returns its BadRequest response; the only record logged is
    that rejection, so no lifecycle or application handler has run. *)
Theorem missing_header_is_bad_request settings depth self request st name :
  name ∈ required_headers self →
  has_header request name = false →
  _expected_headers self request = false
  ∧ select_handler self request st = (Returns (Method m_missing_headers), st)
  ∧ ∃ msg,
      dispatch settings (S depth) self request st =
        (Returns (VResponse (HttpResponseBadRequest msg)),
         mk_state (next_id st) (log st ++ [mk_log WARNING msg])).
Proof.
  intros Hin Hno.
  assert (He : _expected_headers self request = false).
  { apply all_headers_false. eauto. }
  split_and!; [done | by apply select_missing_headers |].
  rewrite dispatch_step, select_missing_headers by done.
  eexists. reflexivity.
Qed.

Lemma missing_header_is_bad_request_witness :
  ∃ msg,
    dispatch no_allow_list 1 (base_view None ∅ "message" ∅)
      (mk_request (make_headers [("Host", "a.com")]) "POST" "/ws/" None)
      sample_state =
      (Returns (VResponse (HttpResponseBadRequest msg)),
       mk_state 100 [mk_log WARNING msg]).
Proof.
  apply (missing_header_is_bad_request no_allow_list 0
           (base_view None ∅ "message" ∅)
           (mk_request (make_headers [("Host", "a.com")]) "POST" "/ws/" None)
           sample_state "User-Agent").
  - compute_done.
  - reflexivity.
Defined.

(** C7. On an application route (past the header and method gates, slug
    neither connect nor disconnect) whose decoded body lacks the route
    selection key, [dispatch] binds [route_selection_key_missing] and
    returns its BadRequest response; the message names the key, and the
    only record logged is that rejection. *)
Theorem route_key_missing_is_bad_request settings depth self request st :
  passes_gates self request → application_route self →
  body self !! route_selection_key self = None →
  let msg := [Lit "route_select_key "; Fmt (FStr (route_selection_key self));
              Lit " missing from request body."] in
  select_handler self request st =
    (Returns (Method m_route_selection_key_missing), st)
  ∧ dispatch settings (S depth) self request st =
      (Returns (VResponse (HttpResponseBadRequest msg)),
       mk_state (next_id st) (log st ++ [mk_log WARNING msg])).
Proof.
  intros Hg Hr Hb msg. split; [by apply select_key_missing|].
  by rewrite dispatch_step, select_key_missing.
Qed.

Lemma route_key_missing_is_bad_request_witness :
  fst (dispatch no_allow_list 1 (base_view None ∅ "message" ∅)
         (gateway_request "AmazonAPIGateway_G1") sample_state)
  = Returns (VResponse (HttpResponseBadRequest
                          [Lit "route_select_key "; Fmt (FStr "action");
                           Lit " missing from request body."])).
Proof.
  refine (f_equal fst (proj2 (route_key_missing_is_bad_request no_allow_list 0
           (base_view None ∅ "message" ∅)
           (gateway_request "AmazonAPIGateway_G1") sample_state _ _ _))).
  - split; [reflexivity | compute_done].
  - split; discriminate.
  - reflexivity.
Defined.

(* ===================================================================== *)
(** ** The default handler and route-key resolution *)
(* ===================================================================== *)

Lemma invalid_useragent_outcome self request st :
  is_bad_request (fst (as_val (invalid_useragent self request) st))
  ∨ fst (as_val (invalid_useragent self request) st)
    = Raises (KeyError "user-agent").
Proof.
  unfold as_val, invalid_useragent, mbind, M_bind, bind.
  destruct (headers request !! "user-agent") as [[k ua]|] eqn:E.
  - rewrite (getitem_present _ "User-Agent" _ _ _ E). left.
    eexists. reflexivity.
  - rewrite (getitem_absent _ "User-Agent" _ E). by right.
Qed.

Lemma getattr_or_default_unknown self name :
  lookup_attr self name = None →
  getattr_or_default self name = Method m_default.
Proof. intros H. unfold getattr_or_default. by rewrite H. Qed.

Lemma getattr_or_default_known self name a :
  lookup_attr self name = Some a → getattr_or_default self name = a.
Proof. intros H. unfold getattr_or_default. by rewrite H. Qed.

(** C6. The default handler raises NotImplementedError whenever it is
    invoked; whenever the handler [dispatch] ends up with is the default
    handler, [dispatch] raises that error; and on an application route
    whose key names no attribute of the view, [dispatch] never returns a
    Success response: once the identity check passes, the handler is the
    default one and the call raises NotImplementedError. *)
Theorem default_handler_raises_not_implemented
    settings depth self request st :
  let err := NotImplementedError
               "This logic needs to be defined within the subclass" in
  (∀ st0, default self request st0 = (Raises err, st0))
  ∧ (∀ st', select_handler self request st = (Returns (Method m_default), st')
            → dispatch settings (S depth) self request st = (Raises err, st'))
  ∧ (∀ name,
       passes_gates self request → application_route self →
       body self !! route_selection_key self = Some (JString name) →
       lookup_attr self name = None →
       ¬ is_success (fst (dispatch settings (S depth) self request st))
       ∧ ∀ st', _expected_useragent self request st = (Returns true, st') →
                select_handler self request st
                  = (Returns (Method m_default), st')
                ∧ dispatch settings (S depth) self request st
                  = (Raises err, st')).
Proof.
  intros err. split_and!.
  - done.
  - intros st' Hsel. by rewrite dispatch_step, Hsel.
  - intros name Hg Hr Hb Hnone. split.
    + rewrite dispatch_step, (select_keyed _ _ _ _ Hg Hr Hb).
      rewrite (getattr_or_default_unknown _ _ Hnone).
      destruct (_expected_useragent self request st) as [[[] | e] st'];
        simpl; intros [data Hs]; try discriminate.
      destruct (invalid_useragent_outcome self request st')
        as [[msg Hbad] | Hkey]; congruence.
    + intros st' Hok.
      rewrite dispatch_step, (select_keyed _ _ _ _ Hg Hr Hb), Hok.
      by rewrite (getattr_or_default_unknown _ _ Hnone).
Qed.

Lemma default_handler_raises_not_implemented_witness :
  fst (dispatch no_allow_list 1
         (base_view None {["action" := JString "ping"]} "message" ∅)
         (gateway_request "AmazonAPIGateway_G1") sample_state)
  = Raises (NotImplementedError
              "This logic needs to be defined within the subclass").
Proof.
  refine (f_equal fst
    (proj2 (proj2 (proj2 (proj2
       (default_handler_raises_not_implemented no_allow_list 0
          (base_view None {["action" := JString "ping"]} "message" ∅)
          (gateway_request "AmazonAPIGateway_G1") sample_state))
       "ping" _ _ _ _) sample_state _))).
  - split; [reflexivity | compute_done].
  - split; discriminate.
  - reflexivity.
  - reflexivity.
  - reflexivity.
Defined.

(** C10. On an application route the value at the route selection key is
    looked up among all attributes of the view, and the attribute found is
    what [dispatch] binds and calls once the identity check has passed:
    a callable that a subclass added is called with the request and its
    result returned; [connect] runs the connect handler, [disconnect] the
    disconnect handler, [missing_headers] the missing-headers rejection,
    and [dispatch] re-enters [dispatch]. When the identity check fails the
    handler is [invalid_useragent] instead, whatever the key names. *)
Theorem route_key_resolves_any_attribute settings depth self request st name :
  passes_gates self request → application_route self →
  body self !! route_selection_key self = Some (JString name) →
  (∀ st', _expected_useragent self request st = (Returns true, st') →
     (∀ a, lookup_attr self name = Some a →
           select_handler self request st = (Returns a, st')
           ∧ dispatch settings (S depth) self request st
             = call_attr (dispatch settings depth self request) settings
                 self request a st')
     ∧ (∀ f, assoc name (own_attrs self) = None →
             extra_attrs self !! name = Some (Callable f) →
             select_handler self request st = (Returns (Callable f), st')
             ∧ dispatch settings (S depth) self request st = f request st')
     ∧ (name = "connect" →
        dispatch settings (S depth) self request st
        = as_val (connect settings self request) st')
     ∧ (name = "disconnect" →
        dispatch settings (S depth) self request st
        = (Returns (VResponse (JsonResponse ∅)),
           mk_state (next_id st')
             (log st' ++ [mk_log DEBUG
                            [Lit "Would update the websocket class to set connected as false"]])))
     ∧ (name = "missing_headers" →
        let msg := [Lit "Some of the required headers are missing; Expected ";
                    Fmt (FList (required_headers self)); Lit ", Received ";
                    Fmt (FHeaders (headers request))] in
        dispatch settings (S depth) self request st
        = (Returns (VResponse (HttpResponseBadRequest msg)),
           mk_state (next_id st') (log st' ++ [mk_log WARNING msg])))
     ∧ (name = "dispatch" →
        dispatch settings (S depth) self request st
        = dispatch settings depth self request st'))
  ∧ (∀ st', _expected_useragent self request st = (Returns false, st') →
            select_handler self request st
            = (Returns (Method m_invalid_useragent), st')
            ∧ dispatch settings (S depth) self request st
              = as_val (invalid_useragent self request) st').
Proof.
  intros Hg Hr Hb. split.
  - intros st' Hok.
    assert (Hstep : ∀ a, lookup_attr self name = Some a →
              select_handler self request st = (Returns a, st')
              ∧ dispatch settings (S depth) self request st
                = call_attr (dispatch settings depth self request) settings
                    self request a st').
    { intros a Ha.
      rewrite dispatch_step, (select_keyed _ _ _ _ Hg Hr Hb), Hok.
      by rewrite (getattr_or_default_known _ _ _ Ha). }
    split_and!.
    + done.
    + intros f Hown Hx. apply (Hstep (Callable f)).
      unfold lookup_attr. by rewrite Hown.
    + intros ->. by apply (Hstep (Method m_connect)).
    + intros ->. by apply (Hstep (Method m_disconnect)).
    + intros -> msg. by apply (Hstep (Method m_missing_headers)).
    + intros ->. by apply (Hstep (Method m_dispatch)).
  - intros st' Hok.
    by rewrite dispatch_step, (select_keyed _ _ _ _ Hg Hr Hb), Hok.
Qed.

Lemma route_key_resolves_any_attribute_witness :
  dispatch no_allow_list 1
    (base_view None {["action" := JString "ping"]} "message"
       {["ping" := Callable pong]})
    (gateway_request "AmazonAPIGateway_G1") sample_state
  = (Returns (VResponse (JsonResponse ∅)), sample_state).
Proof.
  refine (proj2 (proj1 (proj2 (proj1
    (route_key_resolves_any_attribute no_allow_list 0
       (base_view None {["action" := JString "ping"]} "message"
          {["ping" := Callable pong]})
       (gateway_request "AmazonAPIGateway_G1") sample_state
       "ping" _ _ _) sample_state _)) pong _ _)).
  - split; [reflexivity | compute_done].
  - split; discriminate.
  - reflexivity.
  - reflexivity.
  - reflexivity.
  - reflexivity.
Defined.

(** A route key that names [dispatch] makes the dispatcher call itself
    until the interpreter's recursion limit stops it: whatever depth is
    left, the outcome is RecursionError. *)
Lemma dispatch_naming_itself_exhausts_recursion settings self request k ua :
  passes_gates self request → application_route self →
  body self !! route_selection_key self = Some (JString "dispatch") →
  headers request !! "user-agent" = Some (k, ua) →
  (truthy (aws_api_gateway_id self) = false →
   str_contains (expected_useragent_prefix self) (chars ua) = true) →
  ∀ depth st, oid ua < next_id st →
    fst (dispatch settings depth self request st) = Raises RecursionError.
Proof.
  intros Hg Hr Hb Hua Hlenient depth.
  induction depth as [|d IH]; intros st Hlt; [done|].
  rewrite dispatch_step, (select_keyed _ _ _ _ Hg Hr Hb).
  destruct (truthy (aws_api_gateway_id self)) eqn:Ht.
  - rewrite (expected_useragent_strict _ _ _ _ _ Ht Hua).
    rewrite bool_decide_eq_false_2 by lia. simpl. apply IH. simpl. lia.
  - rewrite (expected_useragent_lenient _ _ _ _ _ Ht Hua).
    rewrite (Hlenient eq_refl). simpl. by apply IH.
Qed.

(* ===================================================================== *)
(** ** The identity check when a gateway id is configured *)
(* ===================================================================== *)

Lemma with_header_lookup request name value :
  headers (with_header request name value) !! header_key name
  = Some (name, value).
Proof. unfold with_header. simpl. apply lookup_insert_eq. Qed.

(** C2. With a gateway id configured, the identity check compares the
    User-Agent object with a string object built for the comparison, so
    for every User-Agent object that already exists it returns [True]:
    replacing the header's value by any other existing string gives the
    same result, and [dispatch] keeps the handler it resolved (the
    disconnect handler, or the attribute named by the route key) instead
    of [invalid_useragent]. *)
Theorem strict_identity_check_is_pass_through self request k ua st :
  truthy (aws_api_gateway_id self) = true →
  headers request !! "user-agent" = Some (k, ua) →
  oid ua < next_id st →
  let st' := mk_state (S (next_id st)) (log st) in
  _expected_useragent self request st = (Returns true, st')
  ∧ (∀ ua', oid ua' < next_id st →
            _expected_useragent self (with_header request "User-Agent" ua') st
            = (Returns true, st'))
  ∧ (passes_gates self request → slug self = "disconnect" →
     select_handler self request st = (Returns (Method m_disconnect), st'))
  ∧ (passes_gates self request → application_route self →
     ∀ name, body self !! route_selection_key self = Some (JString name) →
             select_handler self request st
             = (Returns (getattr_or_default self name), st')).
Proof.
  intros Ht Hua Hlt st'.
  assert (Hpass : ∀ request' k' ua',
            headers request' !! "user-agent" = Some (k', ua') →
            oid ua' < next_id st →
            _expected_useragent self request' st = (Returns true, st')).
  { intros request' k' ua' Hua' Hlt'.
    rewrite (expected_useragent_strict _ _ _ _ _ Ht Hua').
    rewrite bool_decide_eq_false_2; [done | lia]. }
  split_and!.
  - eauto.
  - intros ua' Hlt'.
    apply (Hpass _ "User-Agent" ua'); [|done].
    apply (with_header_lookup request "User-Agent").
  - intros Hg Hs. by rewrite (select_disconnect _ _ _ Hg Hs), (Hpass _ _ _ Hua).
  - intros Hg Hr name Hb.
    by rewrite (select_keyed _ _ _ _ Hg Hr Hb), (Hpass _ _ _ Hua).
Qed.

Lemma strict_identity_check_is_pass_through_witness :
  _expected_useragent (base_view (Some gateway_G1) ∅ "disconnect" ∅)
    (gateway_request "Mozilla/5.0") sample_state
  = (Returns true, mk_state 101 []).
Proof.
  refine (proj1 (strict_identity_check_is_pass_through
                   (base_view (Some gateway_G1) ∅ "disconnect" ∅)
                   (gateway_request "Mozilla/5.0")
                   "User-Agent" (mk_str 10 "Mozilla/5.0") sample_state
                   _ _ _)).
  - reflexivity.
  - reflexivity.
  - simpl. lia.
Defined.

(** C1. Evaluation at a request whose User-Agent is not the expected
    prefix followed by the configured gateway id ["G1"]: the identity check
    still returns [True], and on the disconnect path [dispatch] runs the
    disconnect handler and answers Success, not the [invalid_useragent]
    BadRequest. *)
Theorem strict_identity_check_accepts_other_useragent :
  let self := base_view (Some gateway_G1) ∅ "disconnect" ∅ in
  let request := gateway_request "Mozilla/5.0" in
  "Mozilla/5.0"
    ≠ expected_useragent_prefix self +:+ str_opt (aws_api_gateway_id self)
  ∧ fst (getitem request "User-Agent" sample_state)
    = Returns (mk_str 10 "Mozilla/5.0")
  ∧ fst (_expected_useragent self request sample_state) = Returns true
  ∧ fst (select_handler self request sample_state)
    = Returns (Method m_disconnect)
  ∧ fst (dispatch no_allow_list 1 self request sample_state)
    = Returns (VResponse (JsonResponse ∅)).
Proof. split_and!; [discriminate | reflexivity ..]. Qed.

(* ===================================================================== *)
(** ** The API Gateway id check *)
(* ===================================================================== *)

(** Without a gateway id (or with an empty one) the check evaluates to that
    falsy value itself, for every request. *)
Lemma expected_apigateway_id_unset self request st :
  truthy (aws_api_gateway_id self) = false →
  ∃ v, _expected_apigateway_id self request st = (Returns v, st)
       ∧ (v = VNone ∨ ∃ g, v = VStr g ∧ chars g = "").
Proof.
  intros Ht. unfold _expected_apigateway_id.
  destruct (aws_api_gateway_id self) as [g|]; [|eauto].
  rewrite Ht. eexists. split; [done|]. right. exists g. split; [done|].
  simpl in Ht. apply negb_false_iff, bool_decide_eq_true in Ht. done.
Qed.

Lemma expected_apigateway_id_set self request g k h st :
  aws_api_gateway_id self = Some g → chars g ≠ "" →
  headers request !! "x-amzn-apigateway-api-id" = Some (k, h) →
  _expected_apigateway_id self request st
  = (Returns (VBool (negb (bool_decide (oid h = oid g)))), st).
Proof.
  intros Hg Hne Hh. unfold _expected_apigateway_id. rewrite Hg. simpl.
  rewrite bool_decide_eq_false_2 by done. simpl.
  by rewrite (bind_returns _ _ _ _ _
                (getitem_present _ "X-Amzn-Apigateway-Api-Id" _ _ _ Hh)).
Qed.

(** C9. Evaluation with the gateway id ["G1"] configured: a request whose
    X-Amzn-Apigateway-Api-Id header is ["OTHER"] makes the check return
    [True] although the value does not match, and a request whose header is
    the configured object itself makes it return [False] although the value
    matches. *)
Theorem expected_apigateway_id_accepts_other_id :
  let self := base_view (Some gateway_G1) ∅ "message" ∅ in
  let other := with_header (gateway_request "AmazonAPIGateway_G1")
                 "X-Amzn-Apigateway-Api-Id" (mk_str 50 "OTHER") in
  let same := with_header (gateway_request "AmazonAPIGateway_G1")
                "X-Amzn-Apigateway-Api-Id" gateway_G1 in
  "OTHER" ≠ chars gateway_G1
  ∧ fst (_expected_apigateway_id self other sample_state)
    = Returns (VBool true)
  ∧ fst (_expected_apigateway_id self same sample_state)
    = Returns (VBool false).
Proof. split_and!; [discriminate | reflexivity ..]. Qed.

(* ===================================================================== *)
(** ** The kinds of outcome of dispatch *)
(* ===================================================================== *)

Lemma connect_returns_response settings self request kh host st :
  headers request !! "host" = Some (kh, host) →
  (_expected_connection_headers self request = true →
   ∃ ko origin, headers request !! "origin" = Some (ko, origin)) →
  is_success (fst (as_val (connect settings self request) st))
  ∨ is_bad_request (fst (as_val (connect settings self request) st)).
Proof.
  intros Hh Horigin. unfold as_val, connect, mbind, M_bind, bind.
  destruct (_expected_connection_headers self request) eqn:Hc; simpl.
  2: { right. eexists. reflexivity. }
  destruct (Horigin eq_refl) as (ko & origin & Ho).
  rewrite (check_allowed_hosts_run settings _ _ _ st Hh).
  case_bool_decide; simpl.
  - rewrite (check_host_is_in_origin_run _ _ _ _ _ st Hh Ho).
    destruct (str_contains (chars host) (chars origin)); simpl.
    + left. eexists. reflexivity.
    + rewrite !(getitem_present _ "Host" _ _ _ Hh).
      right. eexists. reflexivity.
  - rewrite (getitem_present _ "Host" _ _ _ Hh).
    right. eexists. reflexivity.
Qed.

Lemma invalid_useragent_bad_request self request k ua st :
  headers request !! "user-agent" = Some (k, ua) →
  is_bad_request (fst (as_val (invalid_useragent self request) st)).
Proof.
  intros Hua. destruct (invalid_useragent_outcome self request st)
    as [H | H]; [done|].
  unfold as_val, invalid_useragent, mbind, M_bind, bind in H.
  by rewrite (getitem_present _ "User-Agent" _ _ _ Hua) in H.
Qed.

(** C4, as the code has it. With Host and User-Agent among the required
    headers and Origin among the connection headers, [dispatch] answers
    (1) BadRequest when a required header is missing, (2) the
    method-not-allowed response when the verb is not supported,
    (3) Success or BadRequest on the connect and disconnect paths,
    (4) BadRequest when the route key is absent from the body; (5) when the
    value at the route key is not a string it raises TypeError; (6) when it
    is a string, the identity check returns a boolean: if that is [False]
    the answer is BadRequest, and if it is [True] then [dispatch] raises
    NotImplementedError when the key names no attribute of the view, and
    otherwise yields what calling the named attribute yields. *)
Theorem dispatch_outcome_kinds settings depth self request st :
  "Host" ∈ required_headers self →
  "User-Agent" ∈ required_headers self →
  "Origin" ∈ required_connection_headers self →
  let o := fst (dispatch settings (S depth) self request st) in
  (_expected_headers self request = false → is_bad_request o)
  ∧ (_expected_headers self request = true →
     lower (method request) ∉ http_method_names self →
     o = Returns (VResponse (HttpResponseNotAllowed (_allowed_methods self))))
  ∧ (passes_gates self request →
     slug self = "connect" ∨ slug self = "disconnect" →
     is_success o ∨ is_bad_request o)
  ∧ (passes_gates self request → application_route self →
     body self !! route_selection_key self = None → is_bad_request o)
  ∧ (passes_gates self request → application_route self →
     ∀ v, body self !! route_selection_key self = Some v →
          (∀ name, v ≠ JString name) →
          ∃ why, o = Raises (TypeError why))
  ∧ (passes_gates self request → application_route self →
     ∃ ok st',
       _expected_useragent self request st = (Returns ok, st')
       ∧ (ok = false →
          ∀ name, body self !! route_selection_key self
                  = Some (JString name) →
                  is_bad_request o)
       ∧ (ok = true →
          ∀ name, body self !! route_selection_key self
                  = Some (JString name) →
                  lookup_attr self name = None →
                  o = Raises (NotImplementedError
                         "This logic needs to be defined within the subclass"))
       ∧ (ok = true →
          ∀ name a, body self !! route_selection_key self
                    = Some (JString name) →
                    lookup_attr self name = Some a →
                    o = fst (call_attr (dispatch settings depth self request)
                               settings self request a st'))).
Proof.
  intros Hhost Hagent Horigin o. subst o. rewrite dispatch_step.
  assert (Hua : passes_gates self request →
                ∃ k ua, headers request !! "user-agent" = Some (k, ua)).
  { intros [He _]. apply (required_header_present _ _ "User-Agent" He Hagent). }
  split_and!.
  - intros He. rewrite (select_missing_headers _ _ _ He). simpl.
    eexists. reflexivity.
  - intros He Hm. by rewrite (select_method_not_allowed _ _ _ He Hm).
  - intros Hg [Hs | Hs].
    + rewrite (select_connect _ _ _ Hg Hs). simpl.
      destruct Hg as [He _].
      destruct (required_header_present _ _ "Host" He Hhost)
        as (kh & host & Hh).
      apply (connect_returns_response _ _ _ _ _ _ Hh).
      unfold _expected_connection_headers. rewrite all_headers_true.
      intros Hc. apply (has_header_true request "Origin"). by apply Hc.
    + rewrite (select_disconnect _ _ _ Hg Hs).
      destruct (Hua Hg) as (k & ua & Hk).
      destruct (expected_useragent_returns self request _ _ st Hk)
        as (ok & st' & -> & _).
      destruct ok; simpl.
      * left. eexists. reflexivity.
      * right. by apply (invalid_useragent_bad_request _ _ _ _ _ Hk).
  - intros Hg Hr Hb. rewrite (select_key_missing _ _ _ Hg Hr Hb). simpl.
    eexists. reflexivity.
  - intros [He Hm] [Hc Hd] v Hb Hv. unfold select_handler.
    rewrite He, bool_decide_eq_true_2, !bool_decide_eq_false_2, Hb by done.
    destruct v as [|b|n|m e|name|items|members];
      try (eexists; reflexivity).
    by destruct (Hv name).
  - intros Hg Hr. destruct (Hua Hg) as (k & ua & Hk).
    destruct (expected_useragent_returns self request _ _ st Hk)
      as (ok & st' & Hok & _).
    exists ok, st'. split_and!; [done | | |].
    + intros -> name Hb.
      rewrite (select_keyed _ _ _ _ Hg Hr Hb), Hok. simpl.
      by apply (invalid_useragent_bad_request _ _ _ _ _ Hk).
    + intros -> name Hb Hnone.
      rewrite (select_keyed _ _ _ _ Hg Hr Hb), Hok.
      by rewrite (getattr_or_default_unknown _ _ Hnone).
    + intros -> name a Hb Ha.
      rewrite (select_keyed _ _ _ _ Hg Hr Hb), Hok.
      by rewrite (getattr_or_default_known _ _ _ Ha).
Qed.

Lemma dispatch_outcome_kinds_witness :
  fst (dispatch no_allow_list 1 (base_view None ∅ "message" ∅)
         (mk_request (make_headers (gateway_headers "a.com" "curl/8.0"))
            "BREW" "/ws/" None) sample_state)
  = Returns (VResponse (HttpResponseNotAllowed ["OPTIONS"])).
Proof.
  refine (proj1 (proj2
    (dispatch_outcome_kinds no_allow_list 0 (base_view None ∅ "message" ∅)
       (mk_request (make_headers (gateway_headers "a.com" "curl/8.0"))
          "BREW" "/ws/" None) sample_state _ _ _)) _ _).
  - compute_done.
  - compute_done.
  - compute_done.
  - reflexivity.
  - compute_done.
Defined.

(** C4 as stated fails: with the gateway id ["G1"] configured, slug
    [message] and body [{"action": "ping"}], where [ping] names no
    attribute, [dispatch] raises NotImplementedError; it returns neither a
    Success nor a BadRequest response. *)
Lemma dispatch_outcome_kinds_counterexample :
  let o := fst (dispatch no_allow_list 1
                  (base_view (Some gateway_G1)
                     {["action" := JString "ping"]} "message" ∅)
                  (gateway_request "AmazonAPIGateway_G1") sample_state) in
  o = Raises (NotImplementedError
                "This logic needs to be defined within the subclass")
  ∧ ¬ (is_success o ∨ is_bad_request o).
Proof.
  intros o.
  assert (E : o = Raises (NotImplementedError
                "This logic needs to be defined within the subclass"))
    by reflexivity.
  split; [done|]. rewrite E. intros [[data H] | [msg H]]; discriminate.
Qed.

(* ===================================================================== *)
(** ** The allow-list check *)
(* ===================================================================== *)

(** X1. [_check_allowed_hosts] is exact list membership. With an empty
    allow-list it returns [True] without reading the Host header (so also
    for a request that has none); with a non-empty list and no Host header
    it raises KeyError with the key [host]; with a Host header it returns
    [True] exactly when the list is empty or holds the Host value itself,
    so an entry such as ["*"] admits no other host. *)
Theorem check_allowed_hosts_exact_membership settings request st :
  (ALLOWED_HOSTS settings = [] →
   _check_allowed_hosts settings request st = (Returns true, st))
  ∧ (ALLOWED_HOSTS settings ≠ [] → headers request !! "host" = None →
     _check_allowed_hosts settings request st
     = (Raises (KeyError "host"), st))
  ∧ (∀ kh host,
       headers request !! "host" = Some (kh, host) →
       (fst (_check_allowed_hosts settings request st) = Returns true
        ↔ ALLOWED_HOSTS settings = []
          ∨ chars host ∈ ALLOWED_HOSTS settings)
       ∧ (fst (_check_allowed_hosts settings request st) = Returns false
          ↔ ALLOWED_HOSTS settings ≠ []
            ∧ chars host ∉ ALLOWED_HOSTS settings)
       ∧ (ALLOWED_HOSTS settings = ["*"] → chars host ≠ "*" →
          fst (_check_allowed_hosts settings request st) = Returns false)).
Proof.
  split_and!.
  - apply check_allowed_hosts_empty.
  - intros Hne Hno. unfold _check_allowed_hosts.
    destruct (ALLOWED_HOSTS settings); [done|].
    by rewrite (bind_raises _ _ _ _ _ (getitem_absent _ "Host" _ Hno)).
  - intros kh host Hh.
    rewrite (check_allowed_hosts_run settings _ _ _ st Hh).
    case_bool_decide as Hd; simpl; split_and!.
    + done.
    + split; [done|]. intros [Hne Hnot]. destruct Hd; done.
    + intros Hstar Hne. destruct Hd as [Hd | Hd].
      * by rewrite Hstar in Hd.
      * rewrite Hstar in Hd. by apply list_elem_of_singleton in Hd.
    + split; [done | intros Hd'; by destruct Hd].
    + split; [intros _ | done]. split.
      * intros He. apply Hd. by left.
      * intros Hin. apply Hd. by right.
    + done.
Qed.

Lemma check_allowed_hosts_exact_membership_witness :
  fst (_check_allowed_hosts (mk_settings ["*"])
         (handshake_request "a.com" "https://a.com") sample_state)
  = Returns false.
Proof.
  refine (proj2 (proj2 (proj2 (proj2
    (check_allowed_hosts_exact_membership (mk_settings ["*"])
       (handshake_request "a.com" "https://a.com") sample_state))
    "Host" (mk_str 1 "a.com") _)) _ _).
  - reflexivity.
  - reflexivity.
  - discriminate.
Defined.

(* ===================================================================== *)
(** ** The identity check without a gateway id *)
(* ===================================================================== *)

(** X2. Without a gateway id ([None] or the empty string) the identity
    check returns [True] exactly when the expected prefix occurs somewhere
    in the User-Agent value, not necessarily at its start; it allocates and
    logs nothing. Without a User-Agent header it raises KeyError with the
    key [user-agent], whether or not a gateway id is set. *)
Theorem lenient_identity_check_iff_substring self request st :
  (∀ k ua,
     truthy (aws_api_gateway_id self) = false →
     headers request !! "user-agent" = Some (k, ua) →
     snd (_expected_useragent self request st) = st
     ∧ (fst (_expected_useragent self request st) = Returns true
        ↔ is_substring (expected_useragent_prefix self) (chars ua))
     ∧ (fst (_expected_useragent self request st) = Returns false
        ↔ ¬ is_substring (expected_useragent_prefix self) (chars ua)))
  ∧ (headers request !! "user-agent" = None →
     _expected_useragent self request st
     = (Raises (KeyError "user-agent"), st)).
Proof.
  split; [|apply expected_useragent_absent].
  intros k ua Ht Hua.
  rewrite (expected_useragent_lenient _ _ _ _ _ Ht Hua).
  rewrite <- str_contains_false, <- str_contains_spec. simpl.
  destruct (str_contains _ _); split_and!; try done; split; congruence.
Qed.

Lemma lenient_identity_check_iff_substring_witness :
  fst (_expected_useragent (base_view (Some (mk_str 0 "")) ∅ "message" ∅)
         (gateway_request "curl/8.0 AmazonAPIGateway_spoof") sample_state)
  = Returns true
  ↔ is_substring "AmazonAPIGateway_" "curl/8.0 AmazonAPIGateway_spoof".
Proof.
  refine (proj1 (proj2 (proj1
    (lenient_identity_check_iff_substring
       (base_view (Some (mk_str 0 "")) ∅ "message" ∅)
       (gateway_request "curl/8.0 AmazonAPIGateway_spoof") sample_state)
    "User-Agent" (mk_str 10 "curl/8.0 AmazonAPIGateway_spoof") _ _))).
  - reflexivity.
  - reflexivity.
Defined.

(* ===================================================================== *)
(** ** Edge cases of the origin check *)
(* ===================================================================== *)

Lemma string_length_app (a b : string) :
  String.length (a +:+ b) = (String.length a + String.length b)%nat.
Proof. induction a as [|c a IH]; simpl; [done | by rewrite IH]. Qed.

Lemma is_substring_length needle hay :
  is_substring needle hay → (String.length needle ≤ String.length hay)%nat.
Proof.
  intros (pre & post & ->). rewrite !string_length_app. lia.
Qed.

Lemma is_substring_empty hay : is_substring "" hay.
Proof. by exists "", hay. Qed.

(** X3. [_check_host_is_in_origin] reads Host before Origin and raises
    KeyError for the first one that is missing (with the key [host] or
    [origin]), logging nothing. With both
    present, an empty Host value is accepted whatever the Origin, and a
    Host value longer than the Origin value is rejected with one warning
    logged. *)
Theorem check_host_is_in_origin_edge_cases request st :
  (headers request !! "host" = None →
   _check_host_is_in_origin request st = (Raises (KeyError "host"), st))
  ∧ (∀ kh host,
       headers request !! "host" = Some (kh, host) →
       headers request !! "origin" = None →
       _check_host_is_in_origin request st = (Raises (KeyError "origin"), st))
  ∧ (∀ kh host ko origin,
       headers request !! "host" = Some (kh, host) →
       headers request !! "origin" = Some (ko, origin) →
       (chars host = "" →
        _check_host_is_in_origin request st = (Returns true, st))
       ∧ ((String.length (chars origin) < String.length (chars host))%nat →
          fst (_check_host_is_in_origin request st) = Returns false
          ∧ length (log (snd (_check_host_is_in_origin request st)))
            = S (length (log st)))).
Proof.
  split_and!.
  - intros Hno. unfold _check_host_is_in_origin.
    by rewrite (bind_raises _ _ _ _ _ (getitem_absent _ "Host" _ Hno)).
  - intros kh host Hh Hno. unfold _check_host_is_in_origin.
    rewrite (bind_returns _ _ _ _ _ (getitem_present _ "Host" _ _ _ Hh)).
    by rewrite (bind_raises _ _ _ _ _ (getitem_absent _ "Origin" _ Hno)).
  - intros kh host ko origin Hh Ho.
    rewrite (check_host_is_in_origin_run _ _ _ _ _ st Hh Ho). split.
    + intros He. rewrite He.
      by rewrite (proj2 (str_contains_spec "" _) (is_substring_empty _)).
    + intros Hlen.
      assert (Hc : str_contains (chars host) (chars origin) = false).
      { apply str_contains_false. intros Hs.
        apply is_substring_length in Hs. lia. }
      rewrite Hc. simpl. split; [done|]. rewrite length_app. simpl. lia.
Qed.

Lemma check_host_is_in_origin_edge_cases_witness :
  _check_host_is_in_origin (handshake_request "" "https://a.com") sample_state
  = (Returns true, sample_state).
Proof.
  refine (proj1 (proj2 (proj2
    (check_host_is_in_origin_edge_cases
       (handshake_request "" "https://a.com") sample_state))
    "Host" (mk_str 1 "") "Origin" (mk_str 13 "https://a.com") _ _) _).
  - reflexivity.
  - reflexivity.
  - reflexivity.
Defined.

(* ===================================================================== *)
(** ** When connect succeeds, and when it raises *)
(* ===================================================================== *)

Lemma connect_succeeds settings self request kh host ko origin st :
  _expected_connection_headers self request = true →
  headers request !! "host" = Some (kh, host) →
  headers request !! "origin" = Some (ko, origin) →
  ALLOWED_HOSTS settings = [] ∨ chars host ∈ ALLOWED_HOSTS settings →
  str_contains (chars host) (chars origin) = true →
  ∃ record,
    lvl record = DEBUG ∧
    connect settings self request st
    = (Returns (JsonResponse ∅), mk_state (next_id st) (log st ++ [record])).
Proof.
  intros Hc Hh Ho Hal Hsub. unfold connect. rewrite Hc. simpl.
  unfold mbind, M_bind, bind.
  rewrite (check_allowed_hosts_run settings _ _ _ st Hh).
  rewrite bool_decide_eq_true_2 by done. simpl.
  rewrite (check_host_is_in_origin_run _ _ _ _ _ st Hh Ho), Hsub. simpl.
  eexists. split; [|reflexivity]. done.
Qed.

Lemma check_allowed_hosts_no_host settings request st :
  ALLOWED_HOSTS settings ≠ [] → headers request !! "host" = None →
  _check_allowed_hosts settings request st = (Raises (KeyError "host"), st).
Proof.
  intros Hne Hno. unfold _check_allowed_hosts.
  destruct (ALLOWED_HOSTS settings); [done|].
  by rewrite (bind_raises _ _ _ _ _ (getitem_absent _ "Host" _ Hno)).
Qed.

Lemma check_host_is_in_origin_no_host request st :
  headers request !! "host" = None →
  _check_host_is_in_origin request st = (Raises (KeyError "host"), st).
Proof.
  intros Hno. unfold _check_host_is_in_origin.
  by rewrite (bind_raises _ _ _ _ _ (getitem_absent _ "Host" _ Hno)).
Qed.

Lemma connect_no_host settings self request st :
  _expected_connection_headers self request = true →
  headers request !! "host" = None →
  connect settings self request st = (Raises (KeyError "host"), st).
Proof.
  intros Hc Hh. unfold connect. rewrite Hc. simpl.
  unfold mbind, M_bind, bind.
  destruct (ALLOWED_HOSTS settings) as [|a l] eqn:E.
  - rewrite (check_allowed_hosts_empty _ _ _ E). simpl.
    by rewrite (check_host_is_in_origin_no_host _ _ Hh).
  - rewrite (check_allowed_hosts_no_host _ _ _ ltac:(by rewrite E) Hh). done.
Qed.

Lemma connect_success_inv settings self request st data st' :
  connect settings self request st = (Returns (JsonResponse data), st') →
  data = ∅
  ∧ next_id st' = next_id st
  ∧ (∃ record, lvl record = DEBUG ∧ log st' = (log st ++ [record])%list)
  ∧ _expected_connection_headers self request = true
  ∧ ∃ kh host ko origin,
      headers request !! "host" = Some (kh, host)
      ∧ headers request !! "origin" = Some (ko, origin)
      ∧ (ALLOWED_HOSTS settings = [] ∨ chars host ∈ ALLOWED_HOSTS settings)
      ∧ str_contains (chars host) (chars origin) = true.
Proof.
  destruct (_expected_connection_headers self request) eqn:Hc;
    [|unfold connect; rewrite Hc; intros H; discriminate H].
  destruct (headers request !! "host") as [[kh host]|] eqn:Hh;
    [|rewrite (connect_no_host _ _ _ _ Hc Hh); intros H; discriminate H].
  unfold connect. rewrite Hc. simpl. unfold mbind, M_bind, bind.
  rewrite (check_allowed_hosts_run settings _ _ _ st Hh).
  case_bool_decide as Hal; simpl.
  - destruct (headers request !! "origin") as [[ko origin]|] eqn:Ho.
    + rewrite (check_host_is_in_origin_run _ _ _ _ _ st Hh Ho).
      destruct (str_contains (chars host) (chars origin)) eqn:Hs; simpl.
      * intros H. injection H as <- <-. split_and!; try done.
        -- eexists. split; [|reflexivity]. done.
        -- exists kh, host, ko, origin. by split_and!.
      * rewrite !(getitem_present _ "Host" _ _ _ Hh).
        intros H; discriminate H.
    + unfold _check_host_is_in_origin, mbind, M_bind, bind.
      rewrite (getitem_present _ "Host" _ _ _ Hh).
      rewrite (getitem_absent _ "Origin" _ Ho). intros H; discriminate H.
  - rewrite (getitem_present _ "Host" _ _ _ Hh). intros H; discriminate H.
Qed.

(** X4. [connect] never answers Success unless all three checks pass: a
    Success response implies that every connection header is present, that
    Host and Origin are present, that the allow-list is empty or holds the
    Host value, and that the Host value is a substring of the Origin value.
    The body is then empty, nothing is allocated and the only record logged
    is the debug line. *)
Theorem connect_success_only_if_checks_pass
    settings self request st data st' :
  connect settings self request st = (Returns (JsonResponse data), st') →
  data = ∅
  ∧ next_id st' = next_id st
  ∧ (∃ record, lvl record = DEBUG ∧ log st' = (log st ++ [record])%list)
  ∧ _expected_connection_headers self request = true
  ∧ ∃ kh host ko origin,
      headers request !! "host" = Some (kh, host)
      ∧ headers request !! "origin" = Some (ko, origin)
      ∧ (ALLOWED_HOSTS settings = [] ∨ chars host ∈ ALLOWED_HOSTS settings)
      ∧ is_substring (chars host) (chars origin).
Proof.
  intros H.
  destruct (connect_success_inv _ _ _ _ _ _ H)
    as (Hd & Hid & Hlog & Hc & kh & host & ko & origin & Hh & Ho & Hal & Hs).
  split_and!; try done.
  exists kh, host, ko, origin. split_and!; try done.
  by apply str_contains_spec.
Qed.

Lemma connect_success_only_if_checks_pass_witness :
  ∃ kh host ko origin,
    headers (handshake_request "a.com" "https://a.com") !! "host"
    = Some (kh, host)
    ∧ headers (handshake_request "a.com" "https://a.com") !! "origin"
      = Some (ko, origin)
    ∧ (ALLOWED_HOSTS no_allow_list = []
       ∨ chars host ∈ ALLOWED_HOSTS no_allow_list)
    ∧ is_substring (chars host) (chars origin).
Proof.
  refine (proj2 (proj2 (proj2 (proj2
    (connect_success_only_if_checks_pass no_allow_list
       (base_view None ∅ "connect" ∅)
       (handshake_request "a.com" "https://a.com") sample_state ∅
       (snd (connect no_allow_list (base_view None ∅ "connect" ∅)
               (handshake_request "a.com" "https://a.com") sample_state))
       _))))).
  reflexivity.
Defined.

Lemma carries_headers_iff request names :
  forallb (has_header request) names = true ↔ carries_headers request names.
Proof.
  split; [|apply carries_headers_true].
  rewrite all_headers_true. intros H name Hin.
  specialize (H name Hin). unfold has_header in H.
  by apply bool_decide_eq_true in H.
Qed.

(** X5. With Origin among the required connection headers, [connect]
    raises a KeyError exactly when the request carries every connection
    header but no Host header; the key reported is [host], the normalised
    name that the header mapping looks up, and nothing has been logged. *)
Theorem connect_raises_only_without_host settings self request st key :
  "Origin" ∈ required_connection_headers self →
  (fst (connect settings self request st) = Raises (KeyError key)
   ↔ carries_headers request (required_connection_headers self)
     ∧ headers request !! "host" = None
     ∧ key = "host")
  ∧ (carries_headers request (required_connection_headers self) →
     headers request !! "host" = None →
     connect settings self request st = (Raises (KeyError "host"), st)).
Proof.
  intros Horigin. split.
  2: { intros Hc Hh. apply connect_no_host; [|done].
       by apply carries_headers_true. }
  rewrite <- carries_headers_iff.
  change (forallb (has_header request) (required_connection_headers self))
    with (_expected_connection_headers self request).
  unfold connect.
  destruct (_expected_connection_headers self request) eqn:Hc; simpl.
  2: { split; [intros H; discriminate H | intros (H & _); discriminate H]. }
  assert (Ho : ∃ ko origin, headers request !! "origin" = Some (ko, origin)).
  { apply (has_header_true request "Origin").
    unfold _expected_connection_headers in Hc.
    rewrite all_headers_true in Hc. by apply Hc. }
  destruct Ho as (ko & origin & Ho).
  destruct (headers request !! "host") as [[kh host]|] eqn:Hh.
  - unfold mbind, M_bind, bind.
    rewrite (check_allowed_hosts_run settings _ _ _ st Hh).
    case_bool_decide as Hal; simpl.
    + rewrite (check_host_is_in_origin_run _ _ _ _ _ st Hh Ho).
      destruct (str_contains (chars host) (chars origin)); simpl;
        rewrite ?(getitem_present _ "Host" _ _ _ Hh);
        (split; [intros H; discriminate H | intros (_ & H & _); discriminate H]).
    + rewrite (getitem_present _ "Host" _ _ _ Hh).
      split; [intros H; discriminate H | intros (_ & H & _); discriminate H].
  - pose proof (connect_no_host settings _ _ st Hc Hh) as Hr.
    unfold connect in Hr. rewrite Hc in Hr. simpl in Hr. rewrite Hr. simpl.
    split; [intros H; injection H as <-; done | by intros (_ & _ & ->)].
Qed.

Lemma connect_raises_only_without_host_witness :
  fst (connect no_allow_list (base_view None ∅ "connect" ∅)
         (mk_request (make_headers (handshake_headers "https://a.com"))
            "POST" "/ws/connect" None) sample_state)
  = Raises (KeyError "host").
Proof.
  refine (proj2 (proj1 (connect_raises_only_without_host no_allow_list
            (base_view None ∅ "connect" ∅)
            (mk_request (make_headers (handshake_headers "https://a.com"))
               "POST" "/ws/connect" None) sample_state "host" _))
            _).
  - compute_done.
  - split_and!; [|reflexivity..].
    intros name Hin.
    repeat (apply elem_of_cons in Hin as [-> | Hin]; [by eexists|]).
    by apply elem_of_nil in Hin.
Defined.

(* ===================================================================== *)
(** ** The header checks test presence only *)
(* ===================================================================== *)

Lemma ascii_lower_upper (c : ascii) :
  ascii_lower (ascii_upper c) = ascii_lower c.
Proof. by destruct c as [[] [] [] [] [] [] [] []]. Qed.

Lemma ascii_lower_idemp (c : ascii) :
  ascii_lower (ascii_lower c) = ascii_lower c.
Proof. by destruct c as [[] [] [] [] [] [] [] []]. Qed.

Lemma lower_upper (s : string) : lower (upper s) = lower s.
Proof.
  induction s as [|c s IH]; simpl; [done|].
  by rewrite ascii_lower_upper, IH.
Qed.

Lemma lower_idemp (s : string) : lower (lower s) = lower s.
Proof.
  induction s as [|c s IH]; simpl; [done|].
  by rewrite ascii_lower_idemp, IH.
Qed.

Lemma dash_char_lower (c : ascii) :
  dash_char (ascii_lower c) = ascii_lower (dash_char c).
Proof. by destruct c as [[] [] [] [] [] [] [] []]. Qed.

Lemma dash_char_upper (c : ascii) :
  dash_char (ascii_upper c) = ascii_upper (dash_char c).
Proof. by destruct c as [[] [] [] [] [] [] [] []]. Qed.

Lemma dash_underscores_lower (s : string) :
  dash_underscores (lower s) = lower (dash_underscores s).
Proof.
  induction s as [|c s IH]; simpl; [done|].
  by rewrite dash_char_lower, IH.
Qed.

Lemma dash_underscores_upper (s : string) :
  dash_underscores (upper s) = upper (dash_underscores s).
Proof.
  induction s as [|c s IH]; simpl; [done|].
  by rewrite dash_char_upper, IH.
Qed.

Lemma header_key_upper (s : string) : header_key (upper s) = header_key s.
Proof. unfold header_key. by rewrite dash_underscores_upper, lower_upper. Qed.

Lemma header_key_lower (s : string) : header_key (lower s) = header_key s.
Proof.
  unfold header_key. by rewrite dash_underscores_lower, lower_idemp.
Qed.

Lemma header_key_same_lower (a b : string) :
  lower a = lower b → header_key a = header_key b.
Proof.
  intros H. unfold header_key.
  by rewrite <- !dash_underscores_lower, H.
Qed.

Lemma has_header_with_header request name value n :
  has_header request n = true →
  has_header (with_header request name value) n = true.
Proof.
  rewrite !has_header_true. intros (k & v & H). unfold with_header. simpl.
  destruct (decide (header_key name = header_key n)) as [-> | Hne].
  - rewrite lookup_insert_eq. eauto.
  - rewrite lookup_insert_ne by done. eauto.
Qed.

Lemma with_header_lookup_other request name value key :
  header_key name ≠ key →
  headers (with_header request name value) !! key = headers request !! key.
Proof. intros Hne. unfold with_header. simpl. by apply lookup_insert_ne. Qed.

Lemma all_headers_with_header request name value names :
  forallb (has_header request) names = true →
  forallb (has_header (with_header request name value)) names = true.
Proof.
  rewrite !all_headers_true. intros H n Hin.
  apply has_header_with_header. by apply H.
Qed.

(** X6. The two header checks look at names only. Setting a header (a new
    one, or a new value for one that is there) never makes a passing check
    fail, and makes the check pass when that header was the only one
    missing; a name is matched
    whatever its letter case. *)
Theorem header_checks_test_presence_only self request name value :
  (_expected_headers self request = true →
   _expected_headers self (with_header request name value) = true)
  ∧ (_expected_connection_headers self request = true →
     _expected_connection_headers self (with_header request name value)
     = true)
  ∧ ((∀ n, n ∈ required_headers self → lower n ≠ lower name →
           has_header request n = true) →
     _expected_headers self (with_header request name value) = true)
  ∧ (∀ n, has_header request (upper n) = has_header request n
          ∧ has_header request (lower n) = has_header request n).
Proof.
  split_and!.
  - apply all_headers_with_header.
  - apply all_headers_with_header.
  - intros H. unfold _expected_headers. apply all_headers_true.
    intros n Hin. destruct (decide (lower n = lower name)) as [He | Hne].
    + apply has_header_true. rewrite (header_key_same_lower _ _ He).
      exists name, value. apply with_header_lookup.
    + apply has_header_with_header. by apply H.
  - intros n. unfold has_header. by rewrite header_key_upper, header_key_lower.
Qed.

Lemma header_checks_test_presence_only_witness :
  _expected_headers (base_view None ∅ "message" ∅)
    (with_header (gateway_request "curl/8.0") "HOST" (mk_str 60 "")) = true.
Proof.
  refine (proj1 (header_checks_test_presence_only
                   (base_view None ∅ "message" ∅) (gateway_request "curl/8.0")
                   "HOST" (mk_str 60 "")) _).
  reflexivity.
Defined.

(* ===================================================================== *)
(** ** The connect path does not run the identity check *)
(* ===================================================================== *)

(** X7. On the connect path [dispatch] does not look at the User-Agent
    value: when a request is answered Success, the same request with any
    other User-Agent object is answered Success too, with or without a
    gateway id configured, and no object is allocated for a comparison. *)
Theorem connect_path_ignores_user_agent settings depth self request st ua' :
  passes_gates self request → slug self = "connect" →
  fst (dispatch settings (S depth) self request st)
  = Returns (VResponse (JsonResponse ∅)) →
  fst (dispatch settings (S depth) self
         (with_header request "User-Agent" ua') st)
  = Returns (VResponse (JsonResponse ∅))
  ∧ next_id (snd (dispatch settings (S depth) self
                    (with_header request "User-Agent" ua') st))
    = next_id st.
Proof.
  intros Hg Hs. rewrite !dispatch_step.
  assert (Hg' : passes_gates self (with_header request "User-Agent" ua')).
  { destruct Hg as [He Hm]. split; [|done].
    by apply all_headers_with_header. }
  rewrite (select_connect _ _ _ Hg Hs), (select_connect _ _ _ Hg' Hs).
  simpl. unfold as_val, mbind, M_bind, bind.
  destruct (connect settings self request st) as [[resp | e] st1] eqn:Hc;
    simpl; [|intros H; discriminate H].
  intros H. injection H as ->.
  destruct (connect_success_inv _ _ _ _ _ _ Hc)
    as (_ & _ & _ & Hconn & kh & host & ko & origin & Hh & Ho & Hal & Hsub).
  destruct (connect_succeeds settings self
              (with_header request "User-Agent" ua') kh host ko origin st)
    as (record & _ & ->); try done.
  - by apply all_headers_with_header.
  - by rewrite (with_header_lookup_other _ "User-Agent").
  - by rewrite (with_header_lookup_other _ "User-Agent").
Qed.

Lemma connect_path_ignores_user_agent_witness :
  fst (dispatch no_allow_list 1 (base_view (Some gateway_G1) ∅ "connect" ∅)
         (with_header (handshake_request "a.com" "https://a.com")
            "User-Agent" (mk_str 70 "Mozilla/5.0")) sample_state)
  = Returns (VResponse (JsonResponse ∅)).
Proof.
  refine (proj1 (connect_path_ignores_user_agent no_allow_list 0
                   (base_view (Some gateway_G1) ∅ "connect" ∅)
                   (handshake_request "a.com" "https://a.com") sample_state
                   (mk_str 70 "Mozilla/5.0") _ _ _)).
  - split; [reflexivity | compute_done].
  - reflexivity.
  - reflexivity.
Defined.

(* ===================================================================== *)
(** ** Route keys that do not name a handler *)
(* ===================================================================== *)

(** X8. On an application route whose route-key value is not a string (a
    number, a boolean, null, a list or an object), [dispatch] raises a
    TypeError from [getattr], before the identity check: nothing has been
    allocated or logged. *)
Theorem non_string_route_key_raises_type_error
    settings depth self request st v :
  passes_gates self request → application_route self →
  body self !! route_selection_key self = Some v →
  (∀ name, v ≠ JString name) →
  ∃ why, dispatch settings (S depth) self request st
         = (Raises (TypeError why), st).
Proof.
  intros [He Hm] [Hc Hd] Hb Hv. rewrite dispatch_step.
  unfold select_handler.
  rewrite He, bool_decide_eq_true_2, !bool_decide_eq_false_2, Hb by done.
  destruct v as [|b|n|m e|name|items|members];
    try (eexists; reflexivity).
  by destruct (Hv name).
Qed.

Lemma non_string_route_key_raises_type_error_witness :
  ∃ why,
    dispatch no_allow_list 1
      (base_view (Some gateway_G1) {["action" := JInt 7]} "message" ∅)
      (gateway_request "AmazonAPIGateway_G1") sample_state
    = (Raises (TypeError why), sample_state).
Proof.
  refine (non_string_route_key_raises_type_error no_allow_list 0
            (base_view (Some gateway_G1) {["action" := JInt 7]} "message" ∅)
            (gateway_request "AmazonAPIGateway_G1") sample_state (JInt 7)
            _ _ _ _).
  - split; [reflexivity | compute_done].
  - split; discriminate.
  - reflexivity.
  - discriminate.
Defined.

(** X9. A route key may name an attribute that is no handler, and then
    [dispatch] does not produce a response: once the identity check has
    passed, naming a class attribute such as [body] or [required_headers]
    raises a TypeError (the value cannot be called), naming a helper whose
    signature takes no keyword arguments raises a TypeError, naming
    [_expected_headers] returns the boolean [True], and naming [setup]
    returns [None]. *)
Theorem route_key_naming_a_non_handler settings depth self request st st' :
  passes_gates self request → application_route self →
  _expected_useragent self request st = (Returns true, st') →
  (∀ name,
     name ∈ ["route_selection_key"; "model"; "body"; "aws_api_gateway_id";
             "required_headers"; "required_connection_headers";
             "expected_useragent_prefix"; "http_method_names"; "kwargs"] →
     body self !! route_selection_key self = Some (JString name) →
     ∃ why, dispatch settings (S depth) self request st
            = (Raises (TypeError why), st'))
  ∧ (∀ name,
       name ∈ ["_return_bad_request"; "_check_allowed_hosts";
               "_check_host_is_in_origin"; "_add_user_to_request"] →
       body self !! route_selection_key self = Some (JString name) →
       ∃ why, dispatch settings (S depth) self request st
              = (Raises (TypeError why), st'))
  ∧ (body self !! route_selection_key self
     = Some (JString "_expected_headers") →
     dispatch settings (S depth) self request st = (Returns (VBool true), st'))
  ∧ (body self !! route_selection_key self = Some (JString "setup") →
     dispatch settings (S depth) self request st = (Returns VNone, st')).
Proof.
  intros Hg Hr Hok.
  assert (Hstep : ∀ name,
            body self !! route_selection_key self = Some (JString name) →
            dispatch settings (S depth) self request st
            = call_attr (dispatch settings depth self request) settings self
                request (getattr_or_default self name) st').
  { intros name Hb.
    by rewrite dispatch_step, (select_keyed _ _ _ _ Hg Hr Hb), Hok. }
  split_and!.
  - intros name Hin Hb. rewrite (Hstep _ Hb).
    repeat (apply elem_of_cons in Hin as [-> | Hin];
            [eexists; reflexivity|]).
    by apply elem_of_nil in Hin.
  - intros name Hin Hb. rewrite (Hstep _ Hb).
    repeat (apply elem_of_cons in Hin as [-> | Hin];
            [eexists; reflexivity|]).
    by apply elem_of_nil in Hin.
  - intros Hb. rewrite (Hstep _ Hb). simpl.
    destruct Hg as [He _]. by rewrite He.
  - intros Hb. by rewrite (Hstep _ Hb).
Qed.

Lemma route_key_naming_a_non_handler_witness :
  dispatch no_allow_list 1
    (base_view None {["action" := JString "_expected_headers"]} "message" ∅)
    (gateway_request "AmazonAPIGateway_G1") sample_state
  = (Returns (VBool true), sample_state).
Proof.
  refine (proj1 (proj2 (proj2
    (route_key_naming_a_non_handler no_allow_list 0
       (base_view None {["action" := JString "_expected_headers"]}
          "message" ∅)
       (gateway_request "AmazonAPIGateway_G1") sample_state sample_state
       _ _ _))) _).
  - split; [reflexivity | compute_done].
  - split; discriminate.
  - reflexivity.
  - reflexivity.
Defined.

(* ===================================================================== *)
(** ** The disconnect path without a gateway id *)
(* ===================================================================== *)

(** X10. On the disconnect path with no gateway id configured, [dispatch]
    answers Success with an empty body when the expected prefix occurs in
    the User-Agent value, and otherwise the BadRequest of
    [invalid_useragent], whose message quotes the prefix, the unset id and
    the received value. The state only gains one log record, so
    dispatching the same disconnect again gives the same answer. *)
Theorem disconnect_path_without_gateway_id
    settings depth self request st k ua :
  passes_gates self request → slug self = "disconnect" →
  truthy (aws_api_gateway_id self) = false →
  headers request !! "user-agent" = Some (k, ua) →
  (is_substring (expected_useragent_prefix self) (chars ua) →
   dispatch settings (S depth) self request st
   = (Returns (VResponse (JsonResponse ∅)),
      mk_state (next_id st)
        (log st ++ [mk_log DEBUG
                      [Lit "Would update the websocket class to set connected as false"]])))
  ∧ (¬ is_substring (expected_useragent_prefix self) (chars ua) →
     let msg := [Lit "Unexpected Useragent; Expected ";
                 Fmt (FStr (expected_useragent_prefix self));
                 Fmt (fmt_opt (aws_api_gateway_id self)); Lit ", ";
                 Lit "Received "; Fmt (FStr (chars ua))] in
     dispatch settings (S depth) self request st
     = (Returns (VResponse (HttpResponseBadRequest msg)),
        mk_state (next_id st) (log st ++ [mk_log WARNING msg]))).
Proof.
  intros Hg Hs Ht Hua.
  rewrite dispatch_step, (select_disconnect _ _ _ Hg Hs).
  rewrite (expected_useragent_lenient _ _ _ _ _ Ht Hua). split.
  - intros Hsub. apply str_contains_spec in Hsub. by rewrite Hsub.
  - intros Hsub. apply str_contains_false in Hsub. rewrite Hsub. simpl.
    unfold as_val, invalid_useragent, mbind, M_bind, bind.
    by rewrite (getitem_present _ "User-Agent" _ _ _ Hua).
Qed.

Lemma disconnect_path_without_gateway_id_witness :
  fst (dispatch no_allow_list 1 (base_view None ∅ "disconnect" ∅)
         (gateway_request "Mozilla/5.0") sample_state)
  = Returns (VResponse (HttpResponseBadRequest
               [Lit "Unexpected Useragent; Expected ";
                Fmt (FStr "AmazonAPIGateway_"); Fmt FNone; Lit ", ";
                Lit "Received "; Fmt (FStr "Mozilla/5.0")])).
Proof.
  refine (f_equal fst (proj2
    (disconnect_path_without_gateway_id no_allow_list 0
       (base_view None ∅ "disconnect" ∅) (gateway_request "Mozilla/5.0")
       sample_state "User-Agent" (mk_str 10 "Mozilla/5.0") _ _ _ _) _)).
  - split; [reflexivity | compute_done].
  - reflexivity.
  - reflexivity.
  - reflexivity.
  - intros Hsub. apply str_contains_spec in Hsub. discriminate Hsub.
Defined.

(* ===================================================================== *)
(** ** The recursion limit *)
(* ===================================================================== *)

Lemma dispatch_naming_itself_exhausts_recursion_witness :
  fst (dispatch no_allow_list 25
         (base_view (Some gateway_G1) {["action" := JString "dispatch"]}
            "message" ∅)
         (gateway_request "Mozilla/5.0") sample_state)
  = Raises RecursionError.
Proof.
  refine (dispatch_naming_itself_exhausts_recursion no_allow_list
            (base_view (Some gateway_G1) {["action" := JString "dispatch"]}
               "message" ∅)
            (gateway_request "Mozilla/5.0")
            "User-Agent" (mk_str 10 "Mozilla/5.0") _ _ _ _ _ 25 sample_state
            _).
  - split; [reflexivity | compute_done].
  - split; discriminate.
  - reflexivity.
  - reflexivity.
  - discriminate.
  - simpl. lia.
Defined.

(** X13. Unless the handler [dispatch] binds is [dispatch] itself, one
    level of recursion is all it uses: the result is the same at every
    depth of at least one, so the recursion limit is not reached by
    [dispatch]'s own calls. *)
Theorem dispatch_depth_matters_only_for_itself settings depth self request st :
  fst (select_handler self request st) ≠ Returns (Method m_dispatch) →
  dispatch settings (S depth) self request st
  = dispatch settings 1 self request st.
Proof.
  intros Hsel. rewrite !dispatch_step.
  destruct (select_handler self request st) as [[handler | e] st1]; [|done].
  destruct handler as [m | f |]; try done.
  by destruct m.
Qed.

Lemma dispatch_depth_matters_only_for_itself_witness :
  dispatch no_allow_list 40 (base_view None ∅ "disconnect" ∅)
    (gateway_request "AmazonAPIGateway_G1") sample_state
  = dispatch no_allow_list 1 (base_view None ∅ "disconnect" ∅)
      (gateway_request "AmazonAPIGateway_G1") sample_state.
Proof.
  refine (dispatch_depth_matters_only_for_itself no_allow_list 39
            (base_view None ∅ "disconnect" ∅)
            (gateway_request "AmazonAPIGateway_G1") sample_state _).
  discriminate.
Defined.

(* ===================================================================== *)
(** ** Every rejection is logged *)
(* ===================================================================== *)

Lemma own_attr_kind self name a :
  assoc name (own_attrs self) = Some a →
  (∃ type_name, a = Data type_name) ∨ ∃ m, a = Method m.
Proof.
  unfold own_attrs. simpl.
  repeat (case_bool_decide; [intros [= <-]; eauto|]). done.
Qed.

Lemma lookup_attr_origin self name a :
  lookup_attr self name = Some a →
  (∃ type_name, a = Data type_name) ∨ (∃ m, a = Method m)
  ∨ extra_attrs self !! name = Some a.
Proof.
  unfold lookup_attr. destruct (assoc name (own_attrs self)) as [a'|] eqn:E.
  - intros [= <-]. destruct (own_attr_kind _ _ _ E) as [Hd | Hm]; eauto.
  - eauto.
Qed.

(** The handler [dispatch] binds is a method of the class, a class
    attribute, or an attribute found in [extra_attrs]. *)
Lemma select_handler_origin self request st handler st1 :
  select_handler self request st = (Returns handler, st1) →
  (∃ type_name, handler = Data type_name) ∨ (∃ m, handler = Method m)
  ∨ ∃ name, extra_attrs self !! name = Some handler.
Proof.
  unfold select_handler.
  destruct (_expected_headers self request); [|intros [= <- <-]; eauto].
  case_bool_decide; [|intros [= <- <-]; eauto].
  case_bool_decide; [intros [= <- <-]; eauto|].
  case_bool_decide.
  - unfold mbind, M_bind, bind.
    destruct (_expected_useragent self request st) as [[[] | e] st2];
      simpl; intros [= <- <-]; eauto.
  - destruct (body self !! route_selection_key self) as [v|];
      [|intros [= <- <-]; eauto].
    unfold mbind, M_bind, bind.
    destruct v as [|b|n|m e|name|items|members]; simpl;
      try (intros Hv; discriminate Hv).
    destruct (_expected_useragent self request st) as [[[] | e] st2];
      simpl; intros [= <- <-]; eauto.
    unfold getattr_or_default.
    destruct (lookup_attr self name) as [a|] eqn:E; [|eauto].
    destruct (lookup_attr_origin _ _ _ E) as [Hd | [Hm | Hx]]; eauto.
Qed.

Lemma return_bad_request_logged self request msg :
  logs_rejections (as_val (_return_bad_request self request msg)).
Proof.
  intros st msg' st'. unfold as_val, _return_bad_request. run.
  intros [= <- <-]. simpl. apply last_snoc.
Qed.

Lemma connect_logs_rejections settings self request :
  logs_rejections (as_val (connect settings self request)).
Proof.
  intros st msg st'. unfold as_val, connect, mbind, M_bind, bind.
  destruct (_expected_connection_headers self request); simpl.
  2: { intros [= <- <-]. simpl. apply last_snoc. }
  destruct (_check_allowed_hosts settings request st)
    as [[[] | e] st1] eqn:Ha; simpl; [| |intros H; discriminate H].
  - destruct (_check_host_is_in_origin request st1)
      as [[[] | e] st2] eqn:Ho; simpl; try (intros H; discriminate H).
    unfold getitem.
    destruct (headers request !! header_key "Host") as [[kh host]|]; simpl;
      [|intros H; discriminate H].
    intros [= <- <-]. simpl. apply last_snoc.
  - unfold getitem.
    destruct (headers request !! header_key "Host") as [[kh host]|]; simpl;
      [|intros H; discriminate H].
    intros [= <- <-]. simpl. apply last_snoc.
Qed.

Lemma invalid_useragent_logs_rejections self request :
  logs_rejections (as_val (invalid_useragent self request)).
Proof.
  intros st msg st'. unfold as_val, invalid_useragent, mbind, M_bind, bind.
  unfold getitem.
  destruct (headers request !! header_key "User-Agent") as [[k ua]|]; simpl;
    [|intros H; discriminate H].
  intros [= <- <-]. simpl. apply last_snoc.
Qed.

Lemma call_method_logs_rejections dispatch_again settings self request m :
  logs_rejections dispatch_again →
  logs_rejections (call_method dispatch_again settings self request m).
Proof.
  intros Hrec. destruct m; simpl; try done;
    try (intros st msg st' H; discriminate H).
  - apply return_bad_request_logged.
  - apply return_bad_request_logged.
  - apply invalid_useragent_logs_rejections.
  - intros st msg st'. unfold _expected_apigateway_id.
    destruct (aws_api_gateway_id self) as [g|]; [|intros H; discriminate H].
    destruct (truthy (Some g)); [|intros H; discriminate H].
    unfold mbind, M_bind, bind, getitem.
    destruct (headers request !! header_key "X-Amzn-Apigateway-Api-Id")
      as [[k h]|]; simpl; intros H; discriminate H.
  - intros st msg st'. unfold mbind, M_bind, bind.
    destruct (_expected_useragent self request st) as [[b | e] st1];
      simpl; intros H; discriminate H.
  - apply connect_logs_rejections.
Qed.

(** X14. Every BadRequest that [dispatch] returns has been logged: as long
    as the callables found in [extra_attrs] log their own rejections, when
    [dispatch] returns a BadRequest response the last log record is a
    warning carrying the very message of the response. This holds at every
    recursion depth, thus also when the route key names [dispatch]. *)
Theorem dispatch_logs_every_rejection settings self request :
  (∀ name f, extra_attrs self !! name = Some (Callable f) →
             logs_rejections (f request)) →
  ∀ depth, logs_rejections (dispatch settings depth self request).
Proof.
  intros Hextra depth. induction depth as [|d IH].
  - intros st msg st' H. discriminate H.
  - intros st msg st'. rewrite dispatch_step.
    destruct (select_handler self request st) as [[handler | e] st1] eqn:Hs;
      [|intros H; discriminate H].
    destruct (select_handler_origin _ _ _ _ _ Hs)
      as [[type_name ->] | [[m ->] | [name Hx]]].
    + intros H. discriminate H.
    + apply call_method_logs_rejections, IH.
    + destruct handler as [m | f | type_name].
      * apply call_method_logs_rejections, IH.
      * apply (Hextra _ _ Hx).
      * intros H. discriminate H.
Qed.

Lemma dispatch_logs_every_rejection_witness :
  logs_rejections
    (dispatch (mk_settings ["b.com"]) 3
       (base_view None {["action" := JString "connect"]} "message" ∅)
       (handshake_request "a.com" "https://a.com")).
Proof.
  refine (dispatch_logs_every_rejection (mk_settings ["b.com"])
            (base_view None {["action" := JString "connect"]} "message" ∅)
            (handshake_request "a.com" "https://a.com") _ 3).
  intros name f H. simpl in H. rewrite lookup_empty in H. discriminate H.
Defined.
